(** * FlowState: cash-flow projection, scenarios, health score and store

    A shallow embedding of [app.py] and [bank_ai.py].

    Conventions of the model.
    - A pandas DataFrame is the list of its rows, in row order; the index is
      the default range index and is left implicit (every frame the program
      builds comes from [pd.DataFrame(list)], [pd.concat(..., ignore_index=True)]
      or [reset_index(drop=True)]).  Whether a frame without rows still has
      its columns is kept next to the session frame ([has_columns]).
    - A [datetime.date] is its proleptic Gregorian ordinal ([date.toordinal()]),
      so that [date + timedelta(days=n)] is [d + n] and [(a - b).days] is
      [a - b].  The calendar itself (year, month, day) only appears where the
      program prints and parses dates, in the persistence layer.  Date
      arithmetic is that of the integers: the ends of the ranges that
      [datetime.date] and pandas timestamps can hold are not modelled.
    - Amounts and balances are numbers of an open type [num]; what the program
      computes on them ([+], [-], [<], [Series.sum], [Series.min], [float],
      [abs]) is an interface with no law assumed, so that the definitions are
      the program under any arithmetic.  Two arithmetics are given: the exact
      one of the integers and that of binary64 floats.
    - [datetime.now().date()] is the parameter [today]. *)

From Stdlib Require Import Floats.
From Stdlib Require Import ZArith List String Ascii Bool Lia.
From Stdlib Require Import Permutation Sorted.
Import ListNotations.

Local Open Scope string_scope.
Local Open Scope list_scope.
Local Open Scope Z_scope.

#[local] Set Warnings "-inexact-float".

(** ** Numbers *)

(** The operations of the program on amounts and balances. *)
Class Arith (num : Type) := {
  zero : num;                            (* the literal [0] *)
  plus : num -> num -> num;              (* [a + b] and [a += b] *)
  minus : num -> num -> num;             (* [a - b] *)
  less : num -> num -> bool;             (* [a < b], also written [b > a] *)
  series_sum : list num -> num;          (* [Series.sum()] *)
  series_min : list num -> option num    (* [Series.min()]; [None] is NaN *)
}.

(** The conversions of [bank_ai.py]: [float(x)], where [None] stands for the
    exception it raises, and [abs(x)]. *)
Class FloatConversion (num : Type) := {
  float_of : num -> option num;
  abs_of : num -> num
}.

(** *** Exact arithmetic: integers, sums without rounding or overflow *)

Definition sum_Z (l : list Z) : Z := fold_right Z.add 0 l.

Definition list_min (l : list Z) : option Z :=
  match l with
  | [] => None
  | x :: r => Some (fold_left Z.min r x)
  end.

#[export] Instance exact : Arith Z :=
  {| zero := 0; plus := Z.add; minus := Z.sub; less := Z.ltb;
     series_sum := sum_Z; series_min := list_min |}.

(** [float(z)] on an int: the binary64 number nearest to [z], ties to even,
    and an OverflowError when that is beyond the largest float.  The result is
    a whole number again and is given by its value. *)
Definition float_of_int (z : Z) : option Z :=
  match SpecFloat.binary_normalize FloatOps.prec FloatOps.emax z 0 false with
  | SpecFloat.S754_zero _ => Some 0
  | SpecFloat.S754_finite s m e =>
      let v := if 0 <=? e then Z.pos m * 2 ^ e else Z.pos m / 2 ^ (- e) in
      Some (if s then - v else v)
  | _ => None
  end.

#[export] Instance int_values : FloatConversion Z :=
  {| float_of := float_of_int; abs_of := Z.abs |}.

(** *** Binary64 arithmetic

    [Series.sum()] counts NaN as 0 and adds from left to right (numpy adds a
    series of eight values or more pairwise, in another order: this instance
    is for short series); [Series.min()] skips NaN. *)
Definition float_sum (l : list float) : float :=
  fold_left PrimFloat.add
    (map (fun x => if PrimFloat.is_nan x then 0%float else x) l) 0%float.

Definition float_min (l : list float) : option float :=
  match filter (fun x => negb (PrimFloat.is_nan x)) l with
  | [] => None
  | x :: r => Some (fold_left (fun m y => if PrimFloat.ltb y m then y else m) r x)
  end.

Definition binary64 : Arith float :=
  {| zero := 0%float; plus := PrimFloat.add; minus := PrimFloat.sub;
     less := PrimFloat.ltb; series_sum := float_sum; series_min := float_min |}.

(** ** Data model *)

(** One row of [transactions_df]. *)
Record Transaction (num : Type) := mkTransaction {
  tx_id : Z;
  tx_type : string;
  tx_amount : num;
  tx_date : Z;
  tx_description : string;
  tx_status : string;
  tx_probability : Z
}.
Arguments mkTransaction {num}.
Arguments tx_id {num}.
Arguments tx_type {num}.
Arguments tx_amount {num}.
Arguments tx_date {num}.
Arguments tx_description {num}.
Arguments tx_status {num}.
Arguments tx_probability {num}.

Definition DataFrame (num : Type) := list (Transaction num).

(** One row of the projection frame built by [calculate_cash_flow_projection]. *)
Record Point (num : Type) := mkPoint {
  pt_date : Z;
  balance : num;
  daily_income : num;
  daily_expenses : num;
  net_flow : num
}.
Arguments mkPoint {num}.
Arguments pt_date {num}.
Arguments balance {num}.
Arguments daily_income {num}.
Arguments daily_expenses {num}.
Arguments net_flow {num}.

(** The dictionary returned by [calculate_health_metrics].  [monthly_runway]
    is a floating-point quotient (with [float('inf')] and [round(_, 1)]); it
    is computed without raising, feeds no other field, and is not part of the
    record. *)
Record HealthMetrics (num : Type) := mkHealthMetrics {
  health_score : Z;
  days_until_danger : option Z;
  trend_direction : num;
  min_balance : option num;
  hm_current_balance : num
}.
Arguments mkHealthMetrics {num}.
Arguments health_score {num}.
Arguments days_until_danger {num}.
Arguments trend_direction {num}.
Arguments min_balance {num}.
Arguments hm_current_balance {num}.

(** [df.sort_values('date')]: pandas sorts with its default [kind='quicksort'],
    which fixes no order among rows of equal date.  The model therefore takes
    the sort as an interface: any function returning a date-ordered
    rearrangement of its argument. *)
Definition date_le {num} (a b : Transaction num) : Prop :=
  tx_date a <= tx_date b.

Class SortValues (num : Type) := {
  sort_values : DataFrame num -> DataFrame num;
  sort_values_perm : forall df, Permutation df (sort_values df);
  sort_values_sorted : forall df, StronglySorted date_le (sort_values df)
}.

(** [s.tail(n)]: the last [n] entries. *)
Definition tail {A} (n : nat) (l : list A) : list A :=
  skipn (List.length l - n)%nat l.

Section Engine.

Context {num : Type} {arith : Arith num}.

Definition set_date (t : Transaction num) (d : Z) : Transaction num :=
  {| tx_id := tx_id t; tx_type := tx_type t; tx_amount := tx_amount t;
     tx_date := d; tx_description := tx_description t;
     tx_status := tx_status t; tx_probability := tx_probability t |}.

(** ** Scenario engine: [apply_scenarios] *)

(** The row of the [mask] selection:
    [(df['type'] == 'income') & (df['status'] == 'pending')]. *)
Definition pending_income (t : Transaction num) : bool :=
  String.eqb (tx_type t) "income" && String.eqb (tx_status t) "pending".

(** [df.loc[mask, 'date'] = df.loc[mask, 'date'] + timedelta(days=delay_days)],
    row by row. *)
Definition delay_row (delay_days : Z) (t : Transaction num) : Transaction num :=
  if pending_income t then set_date t (tx_date t + delay_days) else t.

(** The [new_expense] row. *)
Definition new_expense (today : Z) (what_if_expense : num) : Transaction num :=
  {| tx_id := 9999;
     tx_type := "expense";
     tx_amount := what_if_expense;
     tx_date := today + 3;
     tx_description := "What-If Expense";
     tx_status := "projected";
     tx_probability := 100 |}.

Definition scenario_rows (df : DataFrame num) (scenario_type : string)
    (delay_days : Z) : DataFrame num :=
  if String.eqb scenario_type "Payment Delays" then map (delay_row delay_days) df
  else df.

(** [if what_if_expense > 0]. *)
Definition what_if_rows (today : Z) (df : DataFrame num) (what_if_expense : num)
    : DataFrame num :=
  if less zero what_if_expense then df ++ [new_expense today what_if_expense]
  else df.

(** [df.copy()] is the value passing of the model: the argument is never
    changed. *)
Definition apply_scenarios `{SortValues num} (today : Z) (df : DataFrame num)
    (scenario_type : string) (delay_days : Z) (what_if_expense : num)
    : DataFrame num :=
  match df with
  | [] => []                                   (* if df_scenario.empty *)
  | _ :: _ =>
      sort_values
        (what_if_rows today (scenario_rows df scenario_type delay_days)
           what_if_expense)
  end.

(** An instance of the sort: insertion sort on the date. *)
Fixpoint insert_by_date (t : Transaction num) (l : DataFrame num)
    : DataFrame num :=
  match l with
  | [] => [t]
  | u :: r => if tx_date t <? tx_date u then t :: u :: r
              else u :: insert_by_date t r
  end.

Fixpoint sort_by_date (l : DataFrame num) : DataFrame num :=
  match l with
  | [] => []
  | t :: r => insert_by_date t (sort_by_date r)
  end.

(** ** Projection calculator: [calculate_cash_flow_projection] *)

(** [frame['amount'].sum()]. *)
Definition sum_amount (l : DataFrame num) : num :=
  series_sum (map tx_amount l).

Definition is_type (ty : string) (t : Transaction num) : bool :=
  String.eqb (tx_type t) ty.
Definition on_date (d : Z) (t : Transaction num) : bool := tx_date t =? d.

(** [df['date'].min()] and [.max()]; [None] stands for the missing value the
    program tests with [pd.isna].  Every row of the model has a date, so that
    [None] only comes from a frame without rows. *)
Definition date_min (df : DataFrame num) : option Z :=
  match df with
  | [] => None
  | t :: r => Some (fold_left (fun m u => Z.min m (tx_date u)) r (tx_date t))
  end.

Definition date_max (df : DataFrame num) : option Z :=
  match df with
  | [] => None
  | t :: r => Some (fold_left (fun m u => Z.max m (tx_date u)) r (tx_date t))
  end.

(** [pd.date_range(min_date, max_date, freq='D')], as dates: the days from
    [min_date] to [max_date], both included (none when [max_date] is the
    earlier one). *)
Definition date_range (min_date max_date : Z) : list Z :=
  map (fun k => min_date + Z.of_nat k)
      (seq 0 (Z.to_nat (max_date - min_date + 1))).

(** The leading row: the starting balance, dated today. *)
Definition today_point (today : Z) (starting_balance : num) : Point num :=
  {| pt_date := today; balance := starting_balance;
     daily_income := zero; daily_expenses := zero; net_flow := zero |}.

(** The [for single_date in ...] loop; [current_balance] is the running
    variable, the result the rows appended to [daily_flows]. *)
Fixpoint daily_loop (df : DataFrame num) (days : list Z) (current_balance : num)
    : list (Point num) :=
  match days with
  | [] => []
  | date :: rest =>
      let day_transactions := filter (on_date date) df in
      let income := sum_amount (filter (is_type "income") day_transactions) in
      let expenses := sum_amount (filter (is_type "expense") day_transactions) in
      let net := minus income expenses in
      let current_balance := plus current_balance net in
      {| pt_date := date; balance := current_balance;
         daily_income := income; daily_expenses := expenses;
         net_flow := net |}
      :: daily_loop df rest current_balance
  end.

Definition calculate_cash_flow_projection (today : Z) (df : DataFrame num)
    (starting_balance : num) : list (Point num) :=
  match df with
  | [] => [today_point today starting_balance]
  | _ :: _ =>
      match date_min df, date_max df with
      | Some min_date, Some max_date =>
          today_point today starting_balance
          :: daily_loop df (date_range min_date max_date) starting_balance
      | _, _ => [today_point today starting_balance]
      end
  end.

(** ** Health scorer: [calculate_health_metrics] *)

(** [negative_days = projection_df[projection_df['balance'] < 0]]. *)
Definition negative_days (projection_df : list (Point num)) : list (Point num) :=
  filter (fun p => less (balance p) zero) projection_df.

Definition danger_days (today : Z) (projection_df : list (Point num))
    : option Z :=
  match negative_days projection_df with
  | [] => None
  | p :: _ => Some (pt_date p - today)
  end.

Definition score_of (d : option Z) : Z :=
  match d with
  | None => 100
  | Some d =>
      if d <? 30 then Z.max 0 (d * 2)
      else if d <? 60 then 60 + (d - 30)
      else 90
  end.

Definition trend_of (projection_df : list (Point num)) : num :=
  if (1 <? List.length projection_df)%nat then
    let recent_balances := tail 5 (map balance projection_df) in
    if (1 <? List.length recent_balances)%nat
    then minus (last recent_balances zero) (hd zero recent_balances)
    else zero
  else zero.

Definition calculate_health_metrics (today : Z) (projection_df : list (Point num))
    (current_balance : num) : HealthMetrics num :=
  let d := danger_days today projection_df in
  {| health_score := score_of d;           (* round() of an int *)
     days_until_danger := d;
     trend_direction := trend_of projection_df;
     min_balance := series_min (map balance projection_df);
     hm_current_balance := current_balance |}.

End Engine.

(** ** Calendar: what [str(date)] and [datetime.strptime] compute

    The functions of Python's [datetime] that turn an ordinal into year, month
    and day and back, with Python's floor division and modulus on integers
    ([Z.div] and [Z.modulo] for a positive divisor). *)
Module calendar.

Definition MAXORDINAL : Z := 3652059.        (* date(9999, 12, 31).toordinal() *)
Definition DI400Y : Z := 146097.
Definition DI100Y : Z := 36524.
Definition DI4Y : Z := 1461.

Definition is_leap (year : Z) : bool :=
  (year mod 4 =? 0) && (negb (year mod 100 =? 0) || (year mod 400 =? 0)).

Definition days_before_year (year : Z) : Z :=
  let y := year - 1 in y * 365 + y / 4 - y / 100 + y / 400.

Definition DAYS_IN_MONTH (month : Z) : Z :=
  nth (Z.to_nat month) [-1; 31; 28; 31; 30; 31; 30; 31; 31; 30; 31; 30; 31] 0.

Definition DAYS_BEFORE_MONTH (month : Z) : Z :=
  nth (Z.to_nat month)
      [-1; 0; 31; 59; 90; 120; 151; 181; 212; 243; 273; 304; 334] 0.

Definition days_in_month (year month : Z) : Z :=
  if (month =? 2) && is_leap year then 29 else DAYS_IN_MONTH month.

Definition days_before_month (year month : Z) : Z :=
  DAYS_BEFORE_MONTH month + (if (2 <? month) && is_leap year then 1 else 0).

Definition ymd2ord (year month day : Z) : Z :=
  days_before_year year + days_before_month year month + day.

Definition ord2ymd (n : Z) : Z * Z * Z :=
  let n := n - 1 in
  let n400 := n / DI400Y in
  let n := n mod DI400Y in
  let year := n400 * 400 + 1 in
  let n100 := n / DI100Y in
  let n := n mod DI100Y in
  let n4 := n / DI4Y in
  let n := n mod DI4Y in
  let n1 := n / 365 in
  let n := n mod 365 in
  let year := year + (n100 * 100 + n4 * 4 + n1) in
  if (n1 =? 4) || (n100 =? 4) then (year - 1, 12, 31)
  else
    let leapyear := (n1 =? 3) && (negb (n4 =? 24) || (n100 =? 3)) in
    let month := Z.shiftr (n + 50) 5 in
    let preceding :=
      DAYS_BEFORE_MONTH month + (if (2 <? month) && leapyear then 1 else 0) in
    if n <? preceding then
      let month := month - 1 in
      let preceding :=
        preceding
        - (DAYS_IN_MONTH month + (if (month =? 2) && leapyear then 1 else 0)) in
      (year, month, n - preceding + 1)
    else (year, month, n - preceding + 1).

(** A date object exists for the ordinals 1 .. [MAXORDINAL] only. *)
Definition valid_date (d : Z) : Prop := 1 <= d <= MAXORDINAL.

(** ["%04d-%02d-%02d"], for a year below 10000. *)
Definition digit (n : Z) : ascii := ascii_of_nat (48 + Z.to_nat n).

Definition fmt2 (n : Z) : string :=
  String (digit (n / 10)) (String (digit (n mod 10)) EmptyString).

Definition fmt4 (n : Z) : string :=
  String (digit (n / 1000)) (String (digit (n / 100 mod 10)) (fmt2 (n mod 100))).

(** [str(d)], that is [d.isoformat()]. *)
Definition isoformat (d : Z) : string :=
  let '(year, month, day) := ord2ymd d in
  String.append (fmt4 year)
    (String "-" (String.append (fmt2 month) (String "-" (fmt2 day)))).

(** [datetime.strptime(s, '%Y-%m-%d').date()] on ASCII text; [None] is the
    [ValueError].  The format compiles to the regular expression
    [(\d\d\d\d)-(1[0-2]|0[1-9]|[1-9])-(3[0-1]|[1-2]\d|0[1-9]|[1-9]| [1-9])],
    which has to consume the whole string; the date constructor then checks
    year, month and day. *)
Definition digit_val (c : ascii) : option Z :=
  let n := Z.of_nat (nat_of_ascii c) in
  if (48 <=? n) && (n <=? 57) then Some (n - 48) else None.

Definition re_m (s : list ascii) : option Z :=
  match s with
  | [a; b] =>
      match digit_val a, digit_val b with
      | Some x, Some y =>
          if ((x =? 1) && (y <=? 2)) || ((x =? 0) && (1 <=? y))
          then Some (10 * x + y) else None
      | _, _ => None
      end
  | [a] =>
      match digit_val a with
      | Some x => if 1 <=? x then Some x else None
      | None => None
      end
  | _ => None
  end.

Definition re_d (s : list ascii) : option Z :=
  match s with
  | [a; b] =>
      match digit_val a, digit_val b with
      | Some x, Some y =>
          if ((x =? 3) && (y <=? 1)) || ((1 <=? x) && (x <=? 2))
             || ((x =? 0) && (1 <=? y))
          then Some (10 * x + y) else None
      | None, Some y =>
          if Ascii.eqb a " " && (1 <=? y) then Some y else None
      | _, _ => None
      end
  | [a] =>
      match digit_val a with
      | Some x => if 1 <=? x then Some x else None
      | None => None
      end
  | _ => None
  end.

(** The text before the first ['-'] and the text after it. *)
Fixpoint split_dash (s : list ascii) : option (list ascii * list ascii) :=
  match s with
  | [] => None
  | c :: r =>
      if Ascii.eqb c "-" then Some ([], r)
      else match split_dash r with
           | Some (a, b) => Some (c :: a, b)
           | None => None
           end
  end.

Definition strptime (s : string) : option Z :=
  match list_ascii_of_string s with
  | y1 :: y2 :: y3 :: y4 :: dash :: rest =>
      match digit_val y1, digit_val y2, digit_val y3, digit_val y4,
            split_dash rest with
      | Some a, Some b, Some c, Some e, Some (ms, ds) =>
          match re_m ms, re_d ds with
          | Some month, Some day =>
              let year := 1000 * a + 100 * b + 10 * c + e in
              if Ascii.eqb dash "-" && (1 <=? year)
                 && (day <=? days_in_month year month)
              then Some (ymd2ord year month day) else None
          | _, _ => None
          end
      | _, _, _, _, _ => None
      end
  | _ => None
  end.

End calendar.

(** ** The store: [st.session_state] and [cashflow_data.json] *)

(** The three session variables. *)
Module session_state.
Record t (num : Type) := mk {
  transactions_df : DataFrame num;
  current_balance : num;
  next_id : Z
}.
Arguments mk {num}.
Arguments transactions_df {num}.
Arguments current_balance {num}.
Arguments next_id {num}.
End session_state.

(** The JSON document of [cashflow_data.json]: as in the session, but a date
    is a string. *)
Module Json.
Record row (num : Type) := mk_row {
  id : Z;
  type : string;
  amount : num;
  date : string;
  description : string;
  status : string;
  probability : Z
}.
Arguments mk_row {num}.
Arguments id {num}.
Arguments type {num}.
Arguments amount {num}.
Arguments date {num}.
Arguments description {num}.
Arguments status {num}.
Arguments probability {num}.
Record data (num : Type) := mk_data {
  transactions : list (row num);
  current_balance : num;
  next_id : Z
}.
Arguments mk_data {num}.
Arguments transactions {num}.
Arguments current_balance {num}.
Arguments next_id {num}.
End Json.

(** The file on disk: absent, not parseable as JSON, or a document. *)
Inductive file (num : Type) :=
| NoFile
| NotJson
| Data (d : Json.data num).
Arguments NoFile {num}.
Arguments NotJson {num}.
Arguments Data {num}.

(** The session and the file.  [has_columns] tells whether the session frame
    has its columns when it has no rows: [pd.DataFrame(columns=[...])] has
    them, [pd.DataFrame([])] has none.  A frame with rows has its columns
    whatever the field says; the field is only read on a frame without
    rows. *)
Record World (num : Type) := mkWorld {
  session : session_state.t num;
  has_columns : bool;
  cashflow_data_json : file num
}.
Arguments mkWorld {num}.
Arguments session {num}.
Arguments has_columns {num}.
Arguments cashflow_data_json {num}.

(** Exceptions the store operations raise. *)
Inductive exn := IndexError | KeyError.

Inductive outcome (A : Type) :=
| Returned (a : A)
| Raised (e : exn).
Arguments Returned {A} a.
Arguments Raised {A} e.

(** A procedure on the world: its outcome and the world it leaves. *)
Definition Action (num A : Type) : Type := World num -> outcome A * World num.

Definition ret {num A} (a : A) : Action num A := fun w => (Returned a, w).
Definition raise {num A} (e : exn) : Action num A := fun w => (Raised e, w).
Definition bind {num A B} (m : Action num A) (k : A -> Action num B)
    : Action num B :=
  fun w => match m w with
           | (Returned a, w') => k a w'
           | (Raised e, w') => (Raised e, w')
           end.
Definition get_session {num} : Action num (session_state.t num) :=
  fun w => (Returned (session w), w).
Definition put_session {num} (s : session_state.t num) : Action num unit :=
  fun w => (Returned tt, {| session := s;
                            has_columns := has_columns w;
                            cashflow_data_json := cashflow_data_json w |}).
Definition put_columns {num} (b : bool) : Action num unit :=
  fun w => (Returned tt, {| session := session w;
                            has_columns := b;
                            cashflow_data_json := cashflow_data_json w |}).
Definition write_file {num} (d : Json.data num) : Action num unit :=
  fun w => (Returned tt, {| session := session w;
                            has_columns := has_columns w;
                            cashflow_data_json := Data d |}).

Notation "x <- m ;; k" := (bind m (fun x => k))
  (at level 61, m at next level, right associativity).
Notation "m ;;; k" := (bind m (fun _ => k))
  (at level 61, right associativity).

(** Sequences of store operations: what a user does on the Manage Data tab,
    one call after the other. *)
Inductive op (num : Type) :=
| Add (trans_type : string) (amount : num) (date : Z)
      (description status : string) (probability : Z)
| Update (transaction_id : Z) (trans_type : string) (amount : num) (date : Z)
         (description status : string) (probability : Z)
| Delete (transaction_id : Z)
| Balance (new_balance : num)
| Clear.
Arguments Add {num}.
Arguments Update {num}.
Arguments Delete {num}.
Arguments Balance {num}.
Arguments Clear {num}.

(** One extracted transaction; of its keys the program reads these four. *)
Record Extracted (num : Type) := mkExtracted {
  e_type : string;
  e_amount : num;
  e_date : string;
  e_description : string
}.
Arguments mkExtracted {num}.
Arguments e_type {num}.
Arguments e_amount {num}.
Arguments e_date {num}.
Arguments e_description {num}.

(** The parsed reply: the ['transactions'] key and the ['current_balance']
    key, each present or not. *)
Record Batch (num : Type) := mkBatch {
  b_transactions : option (list (Extracted num));
  b_current_balance : option num
}.
Arguments mkBatch {num}.
Arguments b_transactions {num}.
Arguments b_current_balance {num}.

Section Store.

Context {num : Type} {arith : Arith num}.

(** [df.to_dict('records')] under [json.dump(..., default=str)]: the date is
    the one value [json] cannot write, and goes through [str]. *)
Definition to_record (t : Transaction num) : Json.row num :=
  {| Json.id := tx_id t;
     Json.type := tx_type t;
     Json.amount := tx_amount t;
     Json.date := calendar.isoformat (tx_date t);
     Json.description := tx_description t;
     Json.status := tx_status t;
     Json.probability := tx_probability t |}.

Definition dump (s : session_state.t num) : Json.data num :=
  {| Json.transactions := map to_record (session_state.transactions_df s);
     Json.current_balance := session_state.current_balance s;
     Json.next_id := session_state.next_id s |}.

(** [save_data]; the write itself is taken to succeed. *)
Definition save_data : Action num unit :=
  s <- get_session ;; write_file (dump s).

(** The loop [for transaction in data['transactions']] of [load_data], with
    the row then built by [pd.DataFrame]; [None] when [strptime] raises. *)
Definition of_record (r : Json.row num) : option (Transaction num) :=
  match calendar.strptime (Json.date r) with
  | Some d =>
      Some {| tx_id := Json.id r;
              tx_type := Json.type r;
              tx_amount := Json.amount r;
              tx_date := d;
              tx_description := Json.description r;
              tx_status := Json.status r;
              tx_probability := Json.probability r |}
  | None => None
  end.

Fixpoint of_records (l : list (Json.row num)) : option (DataFrame num) :=
  match l with
  | [] => Some []
  | r :: rest =>
      match of_record r with
      | Some t =>
          match of_records rest with
          | Some ts => Some (t :: ts)
          | None => None
          end
      | None => None
      end
  end.

Definition default_store : session_state.t num :=
  {| session_state.transactions_df := [];
     session_state.current_balance := zero;
     session_state.next_id := 1 |}.

(** [load_data]: the rows of the frame, the balance and the next id it
    returns, as a session. *)
Definition load_data (f : file num) : session_state.t num :=
  match f with
  | Data d =>
      match of_records (Json.transactions d) with
      | Some df =>
          {| session_state.transactions_df := df;
             session_state.current_balance := Json.current_balance d;
             session_state.next_id := Json.next_id d |}
      | None => default_store                (* except Exception *)
      end
  | NotJson => default_store                 (* except Exception *)
  | NoFile => default_store                  (* not os.path.exists *)
  end.

(** [pd.DataFrame(records)]: the frame has the keys of the records as its
    columns, and none when there is no record. *)
Definition columns_of (df : DataFrame num) : bool :=
  match df with
  | [] => false
  | _ :: _ => true
  end.

(** Whether the frame [load_data] returns has its columns: the frame of the
    [try] branch is [pd.DataFrame(data['transactions'])], the default one is
    [pd.DataFrame(columns=[...])]. *)
Definition load_data_columns (f : file num) : bool :=
  match f with
  | Data d =>
      match of_records (Json.transactions d) with
      | Some df => columns_of df
      | None => true
      end
  | NotJson | NoFile => true
  end.

(** [initialize_session_state] on a fresh session: the world once the page
    has started on the file [f]. *)
Definition initialize_session_state (f : file num) : World num :=
  {| session := load_data f;
     has_columns := load_data_columns f;
     cashflow_data_json := f |}.

Definition with_df (s : session_state.t num) (df : DataFrame num)
    : session_state.t num :=
  {| session_state.transactions_df := df;
     session_state.current_balance := session_state.current_balance s;
     session_state.next_id := session_state.next_id s |}.

(** [pd.concat] gives the frame the columns of the new row. *)
Definition add_transaction (trans_type : string) (amount : num) (date : Z)
    (description status : string) (probability : Z) : Action num unit :=
  s <- get_session ;;
  let new_transaction :=
    {| tx_id := session_state.next_id s; tx_type := trans_type;
       tx_amount := amount; tx_date := date; tx_description := description;
       tx_status := status; tx_probability := probability |} in
  put_session
    {| session_state.transactions_df :=
         session_state.transactions_df s ++ [new_transaction];
       session_state.current_balance := session_state.current_balance s;
       session_state.next_id := session_state.next_id s + 1 |} ;;;
  put_columns true ;;;
  save_data.

(** Whether the session frame has an ['id'] column. *)
Definition id_column (w : World num) : bool :=
  match session_state.transactions_df (session w) with
  | [] => has_columns w
  | _ :: _ => true
  end.

(** [st.session_state.transactions_df['id']]: a KeyError on a frame without
    that column. *)
Definition getitem_id : Action num unit :=
  fun w => if id_column w then (Returned tt, w) else (Raised KeyError, w).

(** [df[df['id'] == transaction_id].index]: the positions of the rows with
    that id. *)
Fixpoint index_of_id (transaction_id : Z) (df : DataFrame num) (pos : nat)
    : list nat :=
  match df with
  | [] => []
  | t :: r =>
      if tx_id t =? transaction_id
      then pos :: index_of_id transaction_id r (S pos)
      else index_of_id transaction_id r (S pos)
  end.

(** [df.loc[idx] = row] at a position of the frame. *)
Fixpoint set_row (idx : nat) (row : Transaction num) (df : DataFrame num)
    : DataFrame num :=
  match df, idx with
  | [], _ => []
  | _ :: r, O => row :: r
  | t :: r, S i => t :: set_row i row r
  end.

Definition update_transaction (transaction_id : Z) (trans_type : string)
    (amount : num) (date : Z) (description status : string) (probability : Z)
    : Action num unit :=
  getitem_id ;;;                                       (* df['id'] *)
  s <- get_session ;;
  match index_of_id transaction_id (session_state.transactions_df s) 0 with
  | [] => raise IndexError                             (* .index[0] *)
  | idx :: _ =>
      let row :=
        {| tx_id := transaction_id; tx_type := trans_type;
           tx_amount := amount; tx_date := date;
           tx_description := description; tx_status := status;
           tx_probability := probability |} in
      put_session
        (with_df s (set_row idx row (session_state.transactions_df s))) ;;;
      save_data
  end.

(** The selection by a boolean mask keeps the columns of the frame. *)
Definition delete_transaction (transaction_id : Z) : Action num unit :=
  getitem_id ;;;                                       (* df['id'] *)
  s <- get_session ;;
  put_session
    (with_df s
       (filter (fun t => negb (tx_id t =? transaction_id))
               (session_state.transactions_df s))) ;;;
  put_columns true ;;;
  save_data.

(** The scenario run of the dashboard page: the session frame goes through
    [apply_scenarios], [calculate_cash_flow_projection] and
    [calculate_health_metrics]; nothing is stored. *)
Definition run_scenario `{SortValues num} (today : Z) (scenario_type : string)
    (delay_days : Z) (what_if_expense : num)
    : Action num (DataFrame num * list (Point num) * HealthMetrics num) :=
  s <- get_session ;;
  let df_scenario :=
    apply_scenarios today (session_state.transactions_df s) scenario_type
      delay_days what_if_expense in
  let projection_df :=
    calculate_cash_flow_projection today df_scenario
      (session_state.current_balance s) in
  let metrics :=
    calculate_health_metrics today projection_df
      (session_state.current_balance s) in
  ret (df_scenario, projection_df, metrics).

(** ** Ingestion of an extracted batch: [save_to_cashflow_data] *)

Context {conversion : FloatConversion num}.

Definition default_data : Json.data num :=
  {| Json.transactions := []; Json.current_balance := zero;
     Json.next_id := 1 |}.

(** The dictionary built for one incoming transaction; [None] when
    [float(transaction['amount'])] raises. *)
Definition flowstate_transaction (next_id : Z) (transaction : Extracted num)
    : option (Json.row num) :=
  match float_of (e_amount transaction) with
  | Some x =>
      Some {| Json.id := next_id;
              Json.type := e_type transaction;
              Json.amount := abs_of x;
              Json.date := e_date transaction;
              Json.description := e_description transaction;
              Json.status := "confirmed";
              Json.probability := 100 |}
  | None => None
  end.

(** The [for transaction in transaction_list] loop: the list being appended
    to and the running [next_id]; [None] when an iteration raises. *)
Fixpoint convert_loop (transaction_list : list (Extracted num))
    (existing : list (Json.row num)) (next_id : Z)
    : option (list (Json.row num) * Z) :=
  match transaction_list with
  | [] => Some (existing, next_id)
  | transaction :: rest =>
      match flowstate_transaction next_id transaction with
      | Some row => convert_loop rest (existing ++ [row]) (next_id + 1)
      | None => None
      end
  end.

(** The file is written at the end of the [try] block: when a conversion
    raises, the [except] branch returns [False] and the file is as it was. *)
Definition save_to_cashflow_data (transactions : Batch num) (f : file num)
    : bool * file num :=
  let existing_data :=
    match f with
    | Data d => d
    | NoFile | NotJson => default_data   (* FileNotFoundError, JSONDecodeError *)
    end in
  let transaction_list :=
    match b_transactions transactions with
    | Some l => l
    | None => []
    end in
  match convert_loop transaction_list (Json.transactions existing_data)
          (Json.next_id existing_data) with
  | Some (rows, next_id) =>
      match
        match b_current_balance transactions with
        | Some b => float_of b           (* float(transactions['current_balance']) *)
        | None => Some (Json.current_balance existing_data)
        end
      with
      | Some balance =>
          (true, Data {| Json.transactions := rows;
                         Json.current_balance := balance;
                         Json.next_id := next_id |})
      | None => (false, f)                                  (* except Exception *)
      end
  | None => (false, f)                                      (* except Exception *)
  end.

(** ** The balance editor, Clear All Data and Import Data

    The three places outside the transaction functions where the page code
    assigns the session variables and calls [save_data]. *)

(** [show_balance_editor], the Update Balance button. *)
Definition update_balance (new_balance : num) : Action num unit :=
  s <- get_session ;;
  put_session
    {| session_state.transactions_df := session_state.transactions_df s;
       session_state.current_balance := new_balance;
       session_state.next_id := session_state.next_id s |} ;;;
  save_data.

(** [show_quick_actions], the Clear All Data button: the new frame is
    [pd.DataFrame(columns=[...])]. *)
Definition clear_all_data : Action num unit :=
  put_session
    {| session_state.transactions_df := [];
       session_state.current_balance := zero;
       session_state.next_id := 1 |} ;;;
  put_columns true ;;;
  save_data.

(** The Import Data block of [show_quick_add_forms], on an uploaded file.
    The result tells the success message ([true]) from the [st.error] of the
    [except] branch ([false]); the dates are converted before any session
    variable is assigned, and the new frame is
    [pd.DataFrame(data['transactions'])].  [NoFile] stands for no upload: the
    block is skipped. *)
Definition import_data (uploaded_file : file num) : Action num bool :=
  match uploaded_file with
  | Data data =>
      match of_records (Json.transactions data) with
      | Some df =>
          put_session
            {| session_state.transactions_df := df;
               session_state.current_balance := Json.current_balance data;
               session_state.next_id := Json.next_id data |} ;;;
          put_columns (columns_of df) ;;;
          save_data ;;;
          ret true
      | None => ret false
      end
  | NoFile | NotJson => ret false
  end.

Definition run_op (o : op num) : Action num unit :=
  match o with
  | Add ty a d ds st pr => add_transaction ty a d ds st pr
  | Update i ty a d ds st pr => update_transaction i ty a d ds st pr
  | Delete i => delete_transaction i
  | Balance b => update_balance b
  | Clear => clear_all_data
  end.

Fixpoint run_ops (l : list (op num)) : Action num unit :=
  match l with
  | [] => ret tt
  | o :: rest => run_op o ;;; run_ops rest
  end.

(** ** Presentation of the metrics *)

Definition get_health_color_class (score : Z) : string :=
  if 80 <=? score then "health-excellent"
  else if 60 <=? score then "health-good"
  else "health-poor".

Definition get_background_color (metrics : HealthMetrics num) : string :=
  if 80 <=? health_score metrics then "#F0FDF4"
  else if 60 <=? health_score metrics then "#FFFBEB"
  else "#FEF2F2".

Definition get_balance_card_class (metrics : HealthMetrics num) : string :=
  if 80 <=? health_score metrics then "balance-positive"
  else if 60 <=? health_score metrics then "balance-caution"
  else "balance-danger".

(** The condition of the Cash Flow Alert of [main]:
    [days_until_danger is not None and days_until_danger < 30]. *)
Definition critical_alert (metrics : HealthMetrics num) : bool :=
  match days_until_danger metrics with
  | Some d => d <? 30
  | None => false
  end.

(** Python's truth value of [metrics['days_until_danger']]: [None] and [0]
    count as false. *)
Definition truthy (d : option Z) : bool :=
  match d with
  | Some d => negb (d =? 0)
  | None => false
  end.

(** The Days Until Danger card of [main]: its [danger_class] and its
    caption. *)
Definition danger_class (metrics : HealthMetrics num) : string :=
  if truthy (days_until_danger metrics)
     && match days_until_danger metrics with
        | Some d => d <? 30
        | None => false
        end
  then "health-poor" else "health-excellent".

Definition danger_caption (metrics : HealthMetrics num) : string :=
  if truthy (days_until_danger metrics) then "days until negative"
  else "Safe runway".

(** The Trend card of [main]. *)
Definition trend_text (metrics : HealthMetrics num) : string :=
  if less zero (trend_direction metrics) then "Improving" else "Declining".

(** The Payment Risk Alerts of [main]: the rows listed, each with its
    [days_overdue]. *)
Definition overdue_payments (today : Z) (df_scenario : DataFrame num)
    : DataFrame num :=
  match df_scenario with
  | [] => []                                   (* if not df_scenario.empty *)
  | _ :: _ =>
      filter (fun t => String.eqb (tx_type t) "income"
                       && String.eqb (tx_status t) "pending"
                       && (tx_date t <? today))
             df_scenario
  end.

Definition days_overdue (today : Z) (payment : Transaction num) : Z :=
  today - tx_date payment.

End Store.

(** ** Vocabulary of the statements *)

Section Vocabulary.

Context {num : Type} {arith : Arith num}.

(** [m] is the earliest (latest) date of the frame. *)
Definition earliest (m : Z) (df : DataFrame num) : Prop :=
  In m (map tx_date df) /\ forall t, In t df -> m <= tx_date t.

Definition latest (m : Z) (df : DataFrame num) : Prop :=
  In m (map tx_date df) /\ forall t, In t df -> tx_date t <= m.

(** The amounts of the frame of a given type booked on a given day, summed
    as the program sums them. *)
Definition booked (ty : string) (d : Z) (df : DataFrame num) : num :=
  sum_amount (filter (fun t => on_date d t && is_type ty t) df).

(** [t'] is [t] after a delay of [n] days: a pending income moves by [n]
    days, any other row stays as it is; no other field changes. *)
Definition delayed (n : Z) (t t' : Transaction num) : Prop :=
  tx_id t' = tx_id t /\ tx_type t' = tx_type t /\ tx_amount t' = tx_amount t
  /\ tx_description t' = tx_description t /\ tx_status t' = tx_status t
  /\ tx_probability t' = tx_probability t
  /\ (tx_type t = "income" /\ tx_status t = "pending" ->
      tx_date t' = tx_date t + n)
  /\ (~ (tx_type t = "income" /\ tx_status t = "pending") -> t' = t).

(** Every date of the session is a date object. *)
Definition valid_store (s : session_state.t num) : Prop :=
  Forall (fun t => calendar.valid_date (tx_date t))
         (session_state.transactions_df s).

(** The ids of the session are pairwise distinct and below [next_id]. *)
Definition store_ok (s : session_state.t num) : Prop :=
  NoDup (map tx_id (session_state.transactions_df s))
  /\ forall t, In t (session_state.transactions_df s) ->
       tx_id t < session_state.next_id s.

(** The same for a document. *)
Definition data_ok (d : Json.data num) : Prop :=
  NoDup (map Json.id (Json.transactions d))
  /\ forall r, In r (Json.transactions d) -> Json.id r < Json.next_id d.

(** The file holds the session. *)
Definition in_sync (w : World num) : Prop :=
  cashflow_data_json w = Data (dump (session w)).

(** The sum of the amounts of one type over the whole frame. *)
Definition total (ty : string) (df : DataFrame num) : num :=
  sum_amount (filter (is_type ty) df).

(** The balance the projection ends on. *)
Definition final_balance (projection_df : list (Point num)) : num :=
  balance (last projection_df (today_point 0 zero)).

(** [float()] accepts every amount of the batch, and its balance when it has
    one. *)
Definition accepted `{FloatConversion num} (transactions : Batch num) : bool :=
  forallb (fun e => match float_of (e_amount e) with
                    | Some _ => true
                    | None => false
                    end)
          (match b_transactions transactions with Some l => l | None => [] end)
  && match b_current_balance transactions with
     | Some b => match float_of b with Some _ => true | None => false end
     | None => true
     end.

End Vocabulary.

(** No row of the projection is below zero. *)
Definition never_negative (projection_df : list (Point Z)) : Prop :=
  forall p, In p projection_df -> 0 <= balance p.

(** [p] is the first row of the projection below zero. *)
Definition first_negative (p : Point Z) (projection_df : list (Point Z))
    : Prop :=
  exists pre post,
    projection_df = pre ++ p :: post /\ never_negative pre /\ balance p < 0.

(** Each row continues the balance before it: its balance is the previous
    one ([b0] for the first row) plus its net flow. *)
Fixpoint running (b0 : Z) (l : list (Point Z)) : Prop :=
  match l with
  | [] => True
  | p :: r => balance p = b0 + net_flow p /\ running (balance p) r
  end.

(** Boolean checks run over a range of integers: [all_from f a n] tests [f]
    on [a], [a + 1], ..., [a + n - 1].  [cycle_ok] tests one day of the
    400-year cycle, the others one digit, month or day of the month. *)
Definition cycle_ok (r : Z) : bool :=
  let '(y, m, d) := calendar.ord2ymd (r + 1) in
  (1 <=? y) && (y <=? 400) && ((145730 <? r) || (y <=? 399))
  && (1 <=? m) && (m <=? 12) && (1 <=? d)
  && (d <=? calendar.days_in_month y m)
  && (calendar.ymd2ord y m d =? r + 1).

Fixpoint all_from (f : Z -> bool) (start : Z) (count : nat) : bool :=
  match count with
  | O => true
  | S c => f start && all_from f (start + 1) c
  end.

Definition digit_ok (k : Z) : bool :=
  match calendar.digit_val (calendar.digit k) with
  | Some x => (x =? k) && negb (Ascii.eqb (calendar.digit k) "-")
  | None => false
  end.

Definition month_ok (m : Z) : bool :=
  match calendar.re_m (list_ascii_of_string (calendar.fmt2 m)) with
  | Some x => x =? m
  | None => false
  end.

Definition day_ok (d : Z) : bool :=
  match calendar.re_d (list_ascii_of_string (calendar.fmt2 d)) with
  | Some x => x =? d
  | None => false
  end.

(** ** Sample data

    Today is 2025-01-01 (ordinal 739252); amounts are whole numbers. *)
Module sample.

Definition today : Z := 739252.

(** An expense of 2000 due 30 days from today. *)
Definition rent : Transaction Z :=
  {| tx_id := 1; tx_type := "expense"; tx_amount := 2000;
     tx_date := today + 30; tx_description := "Rent";
     tx_status := "confirmed"; tx_probability := 100 |}.

(** An expense dated 10 days ago. *)
Definition overdue : Transaction Z :=
  {| tx_id := 2; tx_type := "expense"; tx_amount := 5000;
     tx_date := today - 10; tx_description := "Equipment";
     tx_status := "confirmed"; tx_probability := 100 |}.

(** A pending income due in 5 days. *)
Definition invoice : Transaction Z :=
  {| tx_id := 3; tx_type := "income"; tx_amount := 5000;
     tx_date := today + 5; tx_description := "Client Payment";
     tx_status := "pending"; tx_probability := 80 |}.

(** A stored row whose id is 9999. *)
Definition late_row : Transaction Z :=
  {| tx_id := 9999; tx_type := "income"; tx_amount := 10;
     tx_date := today + 1; tx_description := "Refund";
     tx_status := "confirmed"; tx_probability := 100 |}.

(** A store holding [rent], saved. *)
Definition store : session_state.t Z :=
  {| session_state.transactions_df := [rent];
     session_state.current_balance := 1000;
     session_state.next_id := 2 |}.

Definition world : World Z :=
  {| session := store; has_columns := true;
     cashflow_data_json := Data (dump store) |}.

(** A batch of one extracted transaction, with a balance. *)
Definition extracted : Extracted Z :=
  {| e_type := "expense"; e_amount := -2500; e_date := "2025-08-02";
     e_description := "Office Rent Payment" |}.

Definition batch : Batch Z :=
  {| b_transactions := Some [extracted]; b_current_balance := Some 500 |}.

End sample.

(** Further sample data: an expense due today, a stored row and an
    extracted row with dates that are not dates, the world after Clear All
    Data and a restart of the page, and two incoming amounts beyond the
    whole numbers that binary64 holds. *)
Module cases.

Definition due_today : Transaction Z :=
  {| tx_id := 4; tx_type := "expense"; tx_amount := 5000;
     tx_date := sample.today; tx_description := "Tax";
     tx_status := "confirmed"; tx_probability := 100 |}.

Definition bad_row : Json.row Z :=
  {| Json.id := 1; Json.type := "income"; Json.amount := 10;
     Json.date := "2025-13-01"; Json.description := "Refund";
     Json.status := "confirmed"; Json.probability := 100 |}.

Definition bad_data : Json.data Z :=
  {| Json.transactions := [bad_row]; Json.current_balance := 70;
     Json.next_id := 2 |}.

Definition bad_extracted : Extracted Z :=
  {| e_type := "income"; e_amount := 10; e_date := "08/02/2025";
     e_description := "Refund" |}.

Definition bad_batch : Batch Z :=
  {| b_transactions := Some [sample.extracted; bad_extracted];
     b_current_balance := None |}.

Definition restarted : World Z :=
  initialize_session_state
    (cashflow_data_json (snd (clear_all_data sample.world))).



(** An amount of 10^400. *)
Definition huge_extracted : Extracted Z :=
  {| e_type := "income"; e_amount := 10 ^ 400; e_date := "2025-08-02";
     e_description := "Transfer" |}.

Definition huge_batch : Batch Z :=
  {| b_transactions := Some [sample.extracted; huge_extracted];
     b_current_balance := Some 500 |}.

End cases.

(** Sample data in binary64: a balance of 0.1 and incomes of 0.2 and 0.3 on
    the two days after today; three incomes on one day, in two orders. *)
Module floats.

Definition income (id : Z) (amount : float) (date : Z) : Transaction float :=
  {| tx_id := id; tx_type := "income"; tx_amount := amount;
     tx_date := date; tx_description := "Payment";
     tx_status := "confirmed"; tx_probability := 100 |}.

Definition two_days : DataFrame float :=
  [income 1 0.2 (sample.today + 1); income 2 0.3 (sample.today + 2)].

Definition one_day : DataFrame float :=
  [income 1 0.1 sample.today; income 2 0.2 sample.today;
   income 3 0.3 sample.today].

Definition one_day_reordered : DataFrame float :=
  [income 3 0.3 sample.today; income 2 0.2 sample.today;
   income 1 0.1 sample.today].

End floats.

(** * Health scorer *)

(** The operations of the exact arithmetic are those of [Z]. *)
Ltac exact_arith :=
  cbn [zero plus minus less series_sum series_min exact] in *.

(** Case analysis on every [<?] of the goal, closed by linear arithmetic. *)
Ltac by_ltb :=
  repeat match goal with
         | |- context [?a <? ?b] => destruct (Z.ltb_spec a b)
         end;
  try reflexivity; try lia.

Section HealthScorer.

Variables (today : Z) (projection_df : list (Point Z)) (current_balance : Z).

Let metrics := calculate_health_metrics today projection_df current_balance.

Lemma negative_days_nil :
  never_negative projection_df -> negative_days projection_df = [].
Proof.
  unfold never_negative, negative_days.
  induction projection_df as [|q l IH]; intros Hnn; [reflexivity|].
  cbn [filter]. exact_arith.
  assert (Hq : 0 <= balance q) by (apply Hnn; now left).
  destruct (Z.ltb_spec (balance q) 0) as [Hlt|_]; [lia|].
  apply IH. intros p Hp. apply Hnn. now right.
Qed.

Lemma negative_days_first p :
  first_negative p projection_df ->
  exists rest, negative_days projection_df = p :: rest.
Proof.
  intros (pre & post & -> & Hpre & Hp).
  unfold negative_days. rewrite filter_app.
  fold (negative_days pre).
  assert (Hnil : negative_days pre = []).
  { clear -Hpre. unfold never_negative, negative_days in *.
    induction pre as [|q l IH]; [reflexivity|]. cbn [filter]. exact_arith.
    assert (Hq : 0 <= balance q) by (apply Hpre; now left).
    destruct (Z.ltb_spec (balance q) 0) as [Hlt|_]; [lia|].
    apply IH. intros r Hr. apply Hpre. now right. }
  rewrite Hnil. cbn [app filter]. exact_arith.
  destruct (Z.ltb_spec (balance p) 0) as [_|Hge]; [|lia].
  eexists. reflexivity.
Qed.

Lemma score_of_bounds d : 0 <= score_of d <= 100.
Proof.
  destruct d as [d|]; cbn [score_of]; by_ltb.
Qed.

(** C1, as amended: the score is 100 when no row of the projection is below
    zero; otherwise, with [d] the days from today to the first row below zero,
    it is [max 0 (2 d)] for [d < 30], [60 + (d - 30)] for [30 <= d < 60] and 90
    from 60 on.  At the boundaries: 0 gives 0, 29 gives 58, 30 gives 60, 59
    gives 89, 60 gives 90. *)
Theorem health_score_piecewise :
  (never_negative projection_df ->
     days_until_danger metrics = None /\ health_score metrics = 100)
  /\ (forall p, first_negative p projection_df ->
        let d := pt_date p - today in
        days_until_danger metrics = Some d
        /\ (d < 30 -> health_score metrics = Z.max 0 (d * 2))
        /\ (30 <= d < 60 -> health_score metrics = 60 + (d - 30))
        /\ (60 <= d -> health_score metrics = 90))
  /\ (days_until_danger metrics = Some 0 -> health_score metrics = 0)
  /\ (days_until_danger metrics = Some 29 -> health_score metrics = 58)
  /\ (days_until_danger metrics = Some 30 -> health_score metrics = 60)
  /\ (days_until_danger metrics = Some 59 -> health_score metrics = 89)
  /\ (days_until_danger metrics = Some 60 -> health_score metrics = 90).
Proof.
  subst metrics. unfold calculate_health_metrics. cbn [days_until_danger health_score].
  split; [|split].
  - intros Hnn. unfold danger_days. rewrite (negative_days_nil Hnn). now split.
  - intros p Hp. destruct (negative_days_first p Hp) as [rest Hrest].
    unfold danger_days. rewrite Hrest. cbn [score_of].
    set (d := pt_date p - today).
    split; [reflexivity|].
    repeat split; intros Hd; by_ltb.
  - repeat split; intros ->; reflexivity.
Qed.

(** C9: the score lies between 0 and 100, and is 0 when the first row below
    zero is dated before today. *)
Theorem health_score_range :
  0 <= health_score metrics <= 100
  /\ (forall d, days_until_danger metrics = Some d -> d < 0 ->
        health_score metrics = 0).
Proof.
  subst metrics. unfold calculate_health_metrics. cbn [days_until_danger health_score].
  split; [apply score_of_bounds|].
  intros d -> Hd. cbn [score_of]. by_ltb.
Qed.

End HealthScorer.

(** * Projection calculator *)

Section Extremes.

Context {num : Type}.
Variable df : DataFrame num.

Lemma running_min_spec (r : DataFrame num) (a : Z) :
  let m := fold_left (fun m u => Z.min m (tx_date u)) r a in
  m <= a /\ (forall t, In t r -> m <= tx_date t)
  /\ (m = a \/ In m (map tx_date r)).
Proof.
  revert a. induction r as [|u r IH]; intros a; cbn [fold_left map].
  - repeat split; [lia | intros t [] | now left].
  - destruct (IH (Z.min a (tx_date u))) as (Hle & Hall & Hin).
    repeat split.
    + lia.
    + intros t [<-|Ht]; [lia | now apply Hall].
    + destruct Hin as [Heq|Hin]; [|right; now right].
      rewrite Heq. destruct (Z.min_spec a (tx_date u)) as [[_ ->]|[_ ->]];
        [now left | right; now left].
Qed.

Lemma running_max_spec (r : DataFrame num) (a : Z) :
  let m := fold_left (fun m u => Z.max m (tx_date u)) r a in
  a <= m /\ (forall t, In t r -> tx_date t <= m)
  /\ (m = a \/ In m (map tx_date r)).
Proof.
  revert a. induction r as [|u r IH]; intros a; cbn [fold_left map].
  - repeat split; [lia | intros t [] | now left].
  - destruct (IH (Z.max a (tx_date u))) as (Hle & Hall & Hin).
    repeat split.
    + lia.
    + intros t [<-|Ht]; [lia | now apply Hall].
    + destruct Hin as [Heq|Hin]; [|right; now right].
      rewrite Heq. destruct (Z.max_spec a (tx_date u)) as [[_ ->]|[_ ->]];
        [right; now left | now left].
Qed.

Lemma date_min_earliest m : date_min df = Some m -> earliest m df.
Proof.
  destruct df as [|t r]; [discriminate|]. cbn [date_min].
  intros [= <-].
  destruct (running_min_spec r (tx_date t)) as (Hle & Hall & Hin).
  split.
  - cbn [map]. destruct Hin as [->|Hin]; [now left | now right].
  - intros u [<-|Hu]; [exact Hle | now apply Hall].
Qed.

Lemma date_max_latest m : date_max df = Some m -> latest m df.
Proof.
  destruct df as [|t r]; [discriminate|]. cbn [date_max].
  intros [= <-].
  destruct (running_max_spec r (tx_date t)) as (Hle & Hall & Hin).
  split.
  - cbn [map]. destruct Hin as [->|Hin]; [now left | now right].
  - intros u [<-|Hu]; [exact Hle | now apply Hall].
Qed.

Lemma earliest_le_latest mn mx : earliest mn df -> latest mx df -> mn <= mx.
Proof.
  intros [Hin _] [_ Hmax].
  apply in_map_iff in Hin as (t & <- & Ht). now apply Hmax.
Qed.

End Extremes.

Lemma date_range_length mn mx :
  mn <= mx -> Z.of_nat (List.length (date_range mn mx)) = mx - mn + 1.
Proof.
  intros H. unfold date_range. rewrite length_map, length_seq. lia.
Qed.

Lemma date_range_In mn mx d : In d (date_range mn mx) <-> mn <= d <= mx.
Proof.
  unfold date_range. rewrite in_map_iff. split.
  - intros (k & <- & Hk). apply in_seq in Hk. lia.
  - intros Hd. exists (Z.to_nat (d - mn)). split; [lia|].
    apply in_seq. lia.
Qed.

Lemma date_range_NoDup mn mx : NoDup (date_range mn mx).
Proof.
  unfold date_range. generalize (Z.to_nat (mx - mn + 1)) as n.
  intros n. generalize 0%nat as s. induction n as [|n IH]; intros s.
  - constructor.
  - cbn [seq map]. constructor; [|apply IH].
    rewrite in_map_iff. intros (k & Hk & Hin). apply in_seq in Hin. lia.
Qed.

Section DailyLoop.

Context {num : Type} {arith : Arith num}.
Variable df : DataFrame num.

Lemma daily_loop_dates days cb :
  map pt_date (daily_loop df days cb) = days.
Proof.
  revert cb. induction days as [|d rest IH]; intros cb; [reflexivity|].
  cbn [daily_loop map pt_date]. now rewrite IH.
Qed.

Lemma filter_filter (f g : Transaction num -> bool) (l : DataFrame num) :
  filter g (filter f l) = filter (fun t => f t && g t) l.
Proof.
  induction l as [|t l IH]; [reflexivity|]. cbn [filter].
  destruct (f t); cbn [filter andb]; [destruct (g t)|]; now rewrite IH.
Qed.

(** Every row the loop emits holds that day's sums, and its balance is the
    balance the loop started from with the net flows emitted so far added to
    it one after the other. *)
Lemma daily_loop_row days cb i p :
  nth_error (daily_loop df days cb) i = Some p ->
  daily_income p = booked "income" (pt_date p) df
  /\ daily_expenses p = booked "expense" (pt_date p) df
  /\ net_flow p = minus (daily_income p) (daily_expenses p)
  /\ balance p
     = fold_left plus (map net_flow (firstn (S i) (daily_loop df days cb))) cb.
Proof.
  revert cb i. induction days as [|d rest IH]; intros cb i.
  - destruct i; discriminate.
  - cbn [daily_loop]. destruct i as [|i].
    + intros [= <-]. cbn. unfold booked. rewrite !filter_filter.
      repeat split.
    + cbn [nth_error]. intros Hp.
      destruct (IH _ _ Hp) as (Hi & He & Hn & Hb).
      repeat split; assumption.
Qed.

End DailyLoop.

Lemma fold_left_add_sum (l : list Z) (b : Z) :
  fold_left Z.add l b = b + sum_Z l.
Proof.
  revert b. induction l as [|x l IH]; intros b; cbn [fold_left sum_Z fold_right];
    [lia|].
  rewrite IH. fold (sum_Z l). lia.
Qed.

(** C2: an empty frame gives the single row for today; otherwise the
    projection is the row for today followed by exactly one row for each day
    from the earliest to the latest date of the frame, that is
    [(latest - earliest) + 2] rows. *)
Theorem projection_one_point_per_day today (df : DataFrame Z) starting_balance :
  (df = [] ->
     calculate_cash_flow_projection today df starting_balance
     = [ {| pt_date := today; balance := starting_balance;
            daily_income := 0; daily_expenses := 0; net_flow := 0 |} ])
  /\ (df <> [] ->
      exists min_date max_date daily,
        earliest min_date df /\ latest max_date df
        /\ calculate_cash_flow_projection today df starting_balance
           = today_point today starting_balance :: daily
        /\ NoDup (map pt_date daily)
        /\ (forall d, In d (map pt_date daily) <-> min_date <= d <= max_date)
        /\ Z.of_nat (List.length
                       (calculate_cash_flow_projection today df starting_balance))
           = (max_date - min_date) + 2).
Proof.
  split; [intros ->; reflexivity|].
  intros Hne. destruct df as [|t r] eqn:Hdf; [congruence|].
  rewrite <- Hdf in *.
  destruct (date_min df) as [mn|] eqn:Hmin; [|subst df; discriminate].
  destruct (date_max df) as [mx|] eqn:Hmax; [|subst df; discriminate].
  pose proof (date_min_earliest df mn Hmin) as Hearly.
  pose proof (date_max_latest df mx Hmax) as Hlate.
  pose proof (earliest_le_latest df mn mx Hearly Hlate) as Hle.
  exists mn, mx, (daily_loop df (date_range mn mx) starting_balance).
  assert (Hcalc : calculate_cash_flow_projection today df starting_balance
                  = today_point today starting_balance
                    :: daily_loop df (date_range mn mx) starting_balance).
  { unfold calculate_cash_flow_projection. rewrite Hmin, Hmax.
    rewrite Hdf at 1. reflexivity. }
  rewrite Hcalc, daily_loop_dates.
  split; [exact Hearly|]. split; [exact Hlate|]. split; [reflexivity|].
  split; [apply date_range_NoDup|]. split; [intros d; apply date_range_In|].
  cbn [List.length].
  rewrite <- (length_map pt_date), daily_loop_dates.
  pose proof (date_range_length mn mx Hle). lia.
Qed.

(** C3, as amended: in any arithmetic the leading row carries the starting
    balance, and each daily row [i] has [net_flow = daily_income -
    daily_expenses], these being the sums of the income and expense amounts
    booked on its day, and a balance that is the starting balance with the net
    flows of the daily rows up to and including [i] added to it one after the
    other, in the order of the days.  In exact arithmetic that is the starting
    balance plus the sum of these net flows. *)
Theorem projection_running_balance :
  (forall (num : Type) (arith : Arith num) today (df : DataFrame num)
          starting_balance,
     exists leading daily,
       calculate_cash_flow_projection today df starting_balance
       = leading :: daily
       /\ balance leading = starting_balance
       /\ forall i p, nth_error daily i = Some p ->
            daily_income p = booked "income" (pt_date p) df
            /\ daily_expenses p = booked "expense" (pt_date p) df
            /\ net_flow p = minus (daily_income p) (daily_expenses p)
            /\ balance p
               = fold_left plus (map net_flow (firstn (S i) daily))
                   starting_balance)
  /\ (forall today (df : DataFrame Z) starting_balance leading daily,
        calculate_cash_flow_projection today df starting_balance
        = leading :: daily ->
        forall i p, nth_error daily i = Some p ->
          balance p
          = starting_balance + sum_Z (map net_flow (firstn (S i) daily))).
Proof.
  assert (Hgen : forall (num : Type) (arith : Arith num) today
                        (df : DataFrame num) starting_balance,
     exists leading daily,
       calculate_cash_flow_projection today df starting_balance
       = leading :: daily
       /\ balance leading = starting_balance
       /\ forall i p, nth_error daily i = Some p ->
            daily_income p = booked "income" (pt_date p) df
            /\ daily_expenses p = booked "expense" (pt_date p) df
            /\ net_flow p = minus (daily_income p) (daily_expenses p)
            /\ balance p
               = fold_left plus (map net_flow (firstn (S i) daily))
                   starting_balance).
  { intros num arith today df starting_balance.
    exists (today_point today starting_balance).
    unfold calculate_cash_flow_projection.
    destruct df as [|t r] eqn:Hdf.
    - exists []. repeat split; try reflexivity; destruct i; discriminate.
    - rewrite <- Hdf.
      destruct (date_min df) as [mn|], (date_max df) as [mx|].
      2-4: exists []; split; [reflexivity|split; [reflexivity|]];
           intros [|i] p; discriminate.
      eexists. split; [reflexivity|]. split; [reflexivity|].
      intros i p Hp. now apply daily_loop_row. }
  split; [exact Hgen|].
  intros today df starting_balance leading daily Hcalc i p Hp.
  destruct (Hgen Z exact today df starting_balance)
    as (leading' & daily' & Hcalc' & _ & Hrows).
  rewrite Hcalc in Hcalc'. injection Hcalc' as _ <-.
  destruct (Hrows i p Hp) as (_ & _ & _ & Hb).
  rewrite Hb. exact_arith. apply fold_left_add_sum.
Qed.

(** C3 as first stated fails in binary64.  With a balance of 0.1 and
    incomes of 0.2 and 0.3 on two days in a row, the net flows are 0.2 and
    0.3 and the second daily row has the balance (0.1 + 0.2) + 0.3, which is
    0.6000000000000001; the starting balance plus the sum of the net flows is
    0.1 + 0.5, which is 0.6. *)
Lemma running_balance_in_binary64 :
  exists leading first second,
    @calculate_cash_flow_projection float binary64 sample.today
      floats.two_days 0.1%float
    = [leading; first; second]
    /\ balance leading = 0.1%float
    /\ net_flow first = 0.2%float /\ net_flow second = 0.3%float
    /\ balance second = 0.6000000000000001%float
    /\ @plus float binary64 0.1%float
         (@series_sum float binary64 [net_flow first; net_flow second])
       = 0.6%float
    /\ balance second
       <> @plus float binary64 0.1%float
            (@series_sum float binary64 [net_flow first; net_flow second]).
Proof.
  do 3 eexists. split; [vm_compute; reflexivity|].
  cbn [balance net_flow].
  repeat split; try (vm_compute; reflexivity).
  intros H.
  apply (f_equal (fun x => PrimFloat.eqb x 0.6%float)) in H.
  vm_compute in H. discriminate H.
Qed.

(** * Scenario engine *)

(** ** The insertion sort is a [sort_values] *)

Section Sorting.

Context {num : Type}.
Implicit Types (t : Transaction num) (l : DataFrame num).

Lemma insert_by_date_perm t l : Permutation (t :: l) (insert_by_date t l).
Proof.
  induction l as [|u r IH]; cbn [insert_by_date]; [apply Permutation_refl|].
  destruct (tx_date t <? tx_date u); [apply Permutation_refl|].
  eapply perm_trans; [apply perm_swap|]. now apply perm_skip.
Qed.

Lemma sort_by_date_perm l : Permutation l (sort_by_date l).
Proof.
  induction l as [|t r IH]; cbn [sort_by_date]; [constructor|].
  eapply perm_trans; [apply perm_skip, IH|]. apply insert_by_date_perm.
Qed.

Lemma insert_by_date_sorted t l :
  StronglySorted date_le l -> StronglySorted date_le (insert_by_date t l).
Proof.
  induction 1 as [|u r Hr IH Hall]; cbn [insert_by_date].
  - constructor; constructor.
  - destruct (Z.ltb_spec (tx_date t) (tx_date u)) as [Hlt|Hge].
    + constructor; [now constructor|].
      constructor; [unfold date_le; lia|].
      eapply Forall_impl; [|exact Hall]. unfold date_le. intros; lia.
    + constructor; [exact IH|].
      eapply Permutation_Forall; [apply insert_by_date_perm|].
      constructor; [exact Hge | exact Hall].
Qed.

Lemma sort_by_date_sorted l : StronglySorted date_le (sort_by_date l).
Proof.
  induction l as [|t r IH]; cbn [sort_by_date]; [constructor|].
  now apply insert_by_date_sorted.
Qed.

End Sorting.

(** ** Rows of the scenario *)

Section Rows.

Context {num : Type}.
Implicit Types (t : Transaction num) (df : DataFrame num).

Lemma pending_income_iff t :
  pending_income t = true <-> tx_type t = "income" /\ tx_status t = "pending".
Proof.
  unfold pending_income. now rewrite andb_true_iff, !String.eqb_eq.
Qed.

Lemma delay_row_delayed n t : delayed n t (delay_row n t).
Proof.
  unfold delayed, delay_row.
  destruct (pending_income t) eqn:Hp.
  - apply pending_income_iff in Hp. cbn. repeat split; tauto.
  - assert (Hn : ~ (tx_type t = "income" /\ tx_status t = "pending")).
    { intros H. apply pending_income_iff in H. congruence. }
    repeat split; tauto.
Qed.

Lemma delay_row_zero t : delay_row 0 t = t.
Proof.
  unfold delay_row. destruct (pending_income t); [|reflexivity].
  destruct t; unfold set_date; cbn. f_equal. lia.
Qed.

Lemma delay_row_id n t : tx_id (delay_row n t) = tx_id t.
Proof. unfold delay_row. now destruct (pending_income t). Qed.

Lemma scenario_rows_ids df scenario_type delay_days :
  map tx_id (scenario_rows df scenario_type delay_days) = map tx_id df.
Proof.
  unfold scenario_rows. destruct (String.eqb _ _); [|reflexivity].
  rewrite map_map. apply map_ext, delay_row_id.
Qed.

End Rows.

Section Rearrangement.

Context {num : Type} {arith : Arith num} `{SortValues num}.
Variables (today : Z) (df : DataFrame num).

Lemma apply_scenarios_perm scenario_type delay_days what_if_expense :
  df <> [] ->
  Permutation
    (what_if_rows today (scenario_rows df scenario_type delay_days)
       what_if_expense)
    (apply_scenarios today df scenario_type delay_days what_if_expense).
Proof.
  unfold apply_scenarios. destruct df; [congruence|].
  intros _. apply sort_values_perm.
Qed.

Lemma apply_scenarios_sorted scenario_type delay_days what_if_expense :
  StronglySorted date_le
    (apply_scenarios today df scenario_type delay_days what_if_expense).
Proof.
  unfold apply_scenarios. destruct df; [constructor|].
  apply sort_values_sorted.
Qed.

(** C5: under Payment Delays the output is a rearrangement of the input
    rows, each pending income moved forward by [delay_days] days and nothing
    else changed, together with the what-if row when there is one; with a
    delay of 0 days the output is a rearrangement of the Base Case output. *)
Theorem payment_delays_frame delay_days what_if_expense :
  (exists rows extra,
     Forall2 (delayed delay_days) df rows
     /\ (extra = [] \/ extra = [new_expense today what_if_expense])
     /\ Permutation (rows ++ extra)
          (apply_scenarios today df "Payment Delays" delay_days
             what_if_expense))
  /\ Permutation
       (apply_scenarios today df "Payment Delays" 0 what_if_expense)
       (apply_scenarios today df "Base Case" 0 what_if_expense).
Proof.
  destruct df as [|t r] eqn:Hdf.
  { split; [|constructor]. exists [], []. repeat split; [constructor | now left
                                                         | constructor]. }
  rewrite <- Hdf. assert (Hne : df <> []) by congruence. clear t r Hdf.
  split.
  - exists (map (delay_row delay_days) df),
      (if less zero what_if_expense then [new_expense today what_if_expense]
       else []).
    split; [|split].
    + clear. induction df as [|t r IH]; cbn [map]; constructor;
        [apply delay_row_delayed | exact IH].
    + destruct (less zero what_if_expense); [now right | now left].
    + pose proof (apply_scenarios_perm "Payment Delays" delay_days
                    what_if_expense Hne) as Hp.
      unfold what_if_rows, scenario_rows in Hp.
      replace (String.eqb "Payment Delays" "Payment Delays") with true in Hp
        by reflexivity.
      destruct (less zero what_if_expense); [exact Hp|].
      now rewrite app_nil_r.
  - eapply perm_trans;
      [apply Permutation_sym, (apply_scenarios_perm "Payment Delays" 0
                                 what_if_expense Hne)|].
    eapply perm_trans;
      [|apply (apply_scenarios_perm "Base Case" 0 what_if_expense Hne)].
    unfold scenario_rows.
    replace (String.eqb "Payment Delays" "Payment Delays") with true
      by reflexivity.
    replace (String.eqb "Base Case" "Payment Delays") with false
      by reflexivity.
    rewrite (map_ext _ (fun t => t) delay_row_zero), map_id.
    apply Permutation_refl.
Qed.

End Rearrangement.

Section Scenarios.

Context `{SortValues Z}.
Variables (today : Z) (df : DataFrame Z).

Lemma apply_scenarios_no_what_if scenario_type delay_days :
  Permutation (scenario_rows df scenario_type delay_days)
    (apply_scenarios today df scenario_type delay_days 0).
Proof.
  destruct df as [|t r] eqn:Hdf.
  - unfold scenario_rows. cbn. destruct (String.eqb _ _); constructor.
  - rewrite <- Hdf.
    assert (Hne : df <> []) by congruence.
    exact (apply_scenarios_perm today df scenario_type delay_days 0 Hne).
Qed.

(** C4, as amended: with a what-if amount of 0 the output is a rearrangement
    of the (possibly delayed) rows, nothing added; on a non-empty frame and a
    positive amount it is a rearrangement of those rows and exactly one more
    row, with type expense, status projected, probability 100, date today + 3,
    description What-If Expense and the given amount; on an empty frame the
    output is empty whatever the amount; the output is always in the order of
    the dates.  The scenario run leaves the session and the file as they
    were. *)
Theorem what_if_injection scenario_type delay_days what_if_expense :
  Permutation (scenario_rows df scenario_type delay_days)
    (apply_scenarios today df scenario_type delay_days 0)
  /\ (df <> [] -> 0 < what_if_expense ->
      exists synthetic,
        Permutation
          (scenario_rows df scenario_type delay_days ++ [synthetic])
          (apply_scenarios today df scenario_type delay_days what_if_expense)
        /\ tx_type synthetic = "expense"
        /\ tx_status synthetic = "projected"
        /\ tx_probability synthetic = 100
        /\ tx_date synthetic = today + 3
        /\ tx_description synthetic = "What-If Expense"
        /\ tx_amount synthetic = what_if_expense)
  /\ (df = [] ->
      apply_scenarios today df scenario_type delay_days what_if_expense = [])
  /\ StronglySorted date_le
       (apply_scenarios today df scenario_type delay_days what_if_expense)
  /\ (forall w,
        snd (run_scenario today scenario_type delay_days what_if_expense w)
        = w).
Proof.
  split; [apply apply_scenarios_no_what_if|]. split; [|split; [|split]].
  - intros Hne Hpos. exists (new_expense today what_if_expense).
    split; [|now cbn].
    pose proof (apply_scenarios_perm today df scenario_type delay_days
                  what_if_expense Hne) as Hp.
    unfold what_if_rows in Hp. exact_arith.
    destruct (Z.ltb_spec 0 what_if_expense); [exact Hp|lia].
  - intros ->. reflexivity.
  - apply apply_scenarios_sorted.
  - intros w. reflexivity.
Qed.

(** C10: with a positive what-if amount on a frame that already holds a row
    of id 9999, the output holds the synthetic row, of id 9999 too, and its
    ids are not pairwise distinct. *)
Theorem what_if_id_collision scenario_type delay_days what_if_expense t :
  0 < what_if_expense -> In t df -> tx_id t = 9999 ->
  let out :=
    apply_scenarios today df scenario_type delay_days what_if_expense in
  In (new_expense today what_if_expense) out
  /\ tx_id (new_expense today what_if_expense) = 9999
  /\ ~ NoDup (map tx_id out).
Proof.
  intros Hpos Hin Hid out.
  assert (Hne : df <> []) by (intros ->; contradiction).
  pose proof (apply_scenarios_perm today df scenario_type delay_days
                what_if_expense Hne) as Hp.
  fold out in Hp. unfold what_if_rows in Hp. exact_arith.
  destruct (Z.ltb_spec 0 what_if_expense) as [_|]; [|lia].
  split; [|split; [reflexivity|]].
  - eapply Permutation_in; [exact Hp|]. apply in_or_app. right. now left.
  - intros Hnd.
    apply (Permutation_NoDup (Permutation_sym (Permutation_map tx_id Hp)))
      in Hnd.
    rewrite map_app, scenario_rows_ids in Hnd. cbn [map tx_id new_expense] in Hnd.
    apply NoDup_remove_2 in Hnd. apply Hnd.
    rewrite app_nil_r. rewrite <- Hid. now apply in_map.
Qed.

End Scenarios.

(** The insertion sort as the sort of the scenario engine. *)
#[export] Instance by_date {num : Type} : SortValues num :=
  {| sort_values := sort_by_date;
     sort_values_perm := sort_by_date_perm;
     sort_values_sorted := sort_by_date_sorted |}.

(** * Transaction store: update and delete *)

Section UnknownId.

Context {num : Type}.
Variables (w : World num) (transaction_id : Z).

Let df := session_state.transactions_df (session w).

Hypothesis unknown : ~ In transaction_id (map tx_id df).

Lemma index_of_id_unknown pos : index_of_id transaction_id df pos = [].
Proof.
  revert pos. clear -unknown. induction df as [|t r IH]; intros pos;
    [reflexivity|].
  cbn [index_of_id]. cbn [map] in unknown.
  destruct (Z.eqb_spec (tx_id t) transaction_id) as [Heq|_].
  - exfalso. apply unknown. now left.
  - apply IH. intros Hin. apply unknown. now right.
Qed.

Lemma filter_unknown :
  filter (fun t => negb (tx_id t =? transaction_id)) df = df.
Proof.
  clear -unknown. induction df as [|t r IH]; [reflexivity|].
  cbn [filter]. cbn [map] in unknown.
  destruct (Z.eqb_spec (tx_id t) transaction_id) as [Heq|_].
  - exfalso. apply unknown. now left.
  - cbn [negb]. f_equal. apply IH. intros Hin. apply unknown. now right.
Qed.

(** C6, as amended: on an id the store does not hold, and a session frame
    that has an id column, [update] raises (an [IndexError]) and leaves
    session and file as they were, while [delete] returns normally, leaves
    the session as it was and writes that session to the file.  On a session
    frame without columns (the empty frame built from an empty list) both
    raise a [KeyError] and leave session and file as they were. *)
Theorem unknown_id_update_delete trans_type amount date description status
    probability :
  (id_column w = true ->
   update_transaction transaction_id trans_type amount date description status
     probability w
   = (Raised IndexError, w)
   /\ delete_transaction transaction_id w
      = (Returned tt,
         {| session := session w;
            has_columns := true;
            cashflow_data_json := Data (dump (session w)) |}))
  /\ (id_column w = false ->
      update_transaction transaction_id trans_type amount date description
        status probability w
      = (Raised KeyError, w)
      /\ delete_transaction transaction_id w = (Raised KeyError, w)).
Proof.
  split; intros Hcol.
  - split.
    + unfold update_transaction, bind, getitem_id. rewrite Hcol.
      unfold get_session. fold df. now rewrite index_of_id_unknown.
    + unfold delete_transaction, bind, getitem_id. rewrite Hcol.
      unfold get_session, put_session, put_columns, save_data, bind,
        get_session, write_file.
      cbn [session cashflow_data_json has_columns]. fold df.
      rewrite filter_unknown.
      unfold with_df. subst df. now destruct (session w).
  - unfold update_transaction, delete_transaction, bind, getitem_id.
    now rewrite Hcol.
Qed.

End UnknownId.

(** * Ingestion of a batch *)

Section Ingestion.

Context {num : Type} {arith : Arith num} {conversion : FloatConversion num}.

Lemma convert_loop_spec transaction_list existing next_id :
  forallb (fun e => match float_of (e_amount e) with
                    | Some _ => true
                    | None => false
                    end) transaction_list = true ->
  exists rows,
    convert_loop transaction_list existing next_id
    = Some (existing ++ rows,
            next_id + Z.of_nat (List.length transaction_list))
    /\ List.length rows = List.length transaction_list
    /\ forall i e, nth_error transaction_list i = Some e ->
         exists x,
           float_of (e_amount e) = Some x
           /\ nth_error rows i
              = Some {| Json.id := next_id + Z.of_nat i;
                        Json.type := e_type e;
                        Json.amount := abs_of x;
                        Json.date := e_date e;
                        Json.description := e_description e;
                        Json.status := "confirmed";
                        Json.probability := 100 |}.
Proof.
  revert existing next_id.
  induction transaction_list as [|e0 rest IH]; intros existing next_id Hok.
  - exists []. cbn. rewrite app_nil_r, Z.add_0_r.
    repeat split. intros [|i] e; discriminate.
  - cbn [forallb] in Hok. apply andb_true_iff in Hok as [Hok0 Hok].
    cbn [convert_loop]. unfold flowstate_transaction.
    destruct (float_of (e_amount e0)) as [x0|] eqn:Ex0; [|discriminate].
    destruct (IH (existing ++ [{| Json.id := next_id;
                                  Json.type := e_type e0;
                                  Json.amount := abs_of x0;
                                  Json.date := e_date e0;
                                  Json.description := e_description e0;
                                  Json.status := "confirmed";
                                  Json.probability := 100 |}])
                (next_id + 1) Hok) as (rows & Heq & Hlen & Hnth).
    eexists (_ :: rows).
    rewrite Heq, <- app_assoc. cbn [app List.length].
    split; [do 2 f_equal; lia|]. split; [now rewrite Hlen|].
    intros [|i] e; cbn [nth_error].
    + intros [= <-]. exists x0. split; [exact Ex0|]. now rewrite Z.add_0_r.
    + intros He. destruct (Hnth _ _ He) as (x & Hx & Hrow).
      exists x. split; [exact Hx|]. rewrite Hrow. do 2 f_equal. lia.
Qed.


(** When [float()] accepts the batch, the merge writes the old rows and one
    new row per incoming transaction. *)
Lemma merge_accepted (transactions : Batch num) (f : file num) :
  let existing_data :=
    match f with Data d => d | NoFile | NotJson => default_data end in
  let transaction_list :=
    match b_transactions transactions with Some l => l | None => [] end in
  accepted transactions = true ->
  exists rows balance,
    save_to_cashflow_data transactions f
    = (true,
       Data {| Json.transactions := Json.transactions existing_data ++ rows;
               Json.current_balance := balance;
               Json.next_id :=
                 Json.next_id existing_data
                 + Z.of_nat (List.length transaction_list) |})
    /\ List.length rows = List.length transaction_list
    /\ (forall i e, nth_error transaction_list i = Some e ->
          exists x,
            float_of (e_amount e) = Some x
            /\ nth_error rows i
               = Some {| Json.id := Json.next_id existing_data + Z.of_nat i;
                         Json.type := e_type e;
                         Json.amount := abs_of x;
                         Json.date := e_date e;
                         Json.description := e_description e;
                         Json.status := "confirmed";
                         Json.probability := 100 |})
    /\ match b_current_balance transactions with
       | Some b => float_of b = Some balance
       | None => balance = Json.current_balance existing_data
       end.
Proof.
  intros existing_data transaction_list.
  unfold accepted, save_to_cashflow_data.
  fold existing_data. fold transaction_list.
  intros Hacc. apply andb_true_iff in Hacc as [Hrows Hbal].
  destruct (convert_loop_spec transaction_list
              (Json.transactions existing_data)
              (Json.next_id existing_data) Hrows)
    as (rows & Heq & Hlen & Hnth).
  rewrite Heq. exists rows.
  destruct (b_current_balance transactions) as [b|].
  - destruct (float_of b) as [x|] eqn:Eb; [|discriminate].
    exists x. repeat split; assumption.
  - eexists. repeat split; assumption.
Qed.



End Ingestion.
(** * Persistence: printing and parsing dates, saving and loading *)

Module calendar_facts.
Import calendar.

Lemma all_from_spec f start count :
  all_from f start count = true ->
  forall r, start <= r < start + Z.of_nat count -> f r = true.
Proof.
  revert start. induction count as [|c IH]; intros start Hall r Hr; [lia|].
  cbn [all_from] in Hall. apply andb_true_iff in Hall as [Hs Hrest].
  destruct (Z.eq_dec r start) as [->|Hne]; [exact Hs|].
  apply (IH (start + 1) Hrest). lia.
Qed.

Lemma cycle_checked : all_from cycle_ok 0 (Z.to_nat DI400Y) = true.
Proof. vm_compute. reflexivity. Qed.

Lemma ord2ymd_period n :
  ord2ymd n
  = let '(y, m, d) := ord2ymd ((n - 1) mod DI400Y + 1) in
    (y + 400 * ((n - 1) / DI400Y), m, d).
Proof.
  assert (Hr : 0 <= (n - 1) mod DI400Y < DI400Y)
    by (apply Z.mod_pos_bound; reflexivity).
  unfold ord2ymd. cbv zeta.
  replace ((n - 1) mod DI400Y + 1 - 1) with ((n - 1) mod DI400Y) by lia.
  rewrite (Z.div_small _ _ Hr), (Z.mod_small _ _ Hr).
  set (r := (n - 1) mod DI400Y). set (q := (n - 1) / DI400Y).
  set (n100 := r / DI100Y). set (r1 := r mod DI100Y).
  set (n4 := r1 / DI4Y). set (r2 := r1 mod DI4Y).
  set (n1 := r2 / 365). set (n0 := r2 mod 365).
  destruct ((n1 =? 4) || (n100 =? 4)); [f_equal; f_equal; lia|].
  set (month := Z.shiftr (n0 + 50) 5).
  set (leapyear := (n1 =? 3) && (negb (n4 =? 24) || (n100 =? 3))).
  set (preceding := DAYS_BEFORE_MONTH month
                    + (if (2 <? month) && leapyear then 1 else 0)).
  destruct (n0 <? preceding); f_equal; f_equal; lia.
Qed.

Lemma is_leap_period y q : is_leap (y + 400 * q) = is_leap y.
Proof.
  unfold is_leap.
  replace ((y + 400 * q) mod 4) with (y mod 4)
    by (replace (y + 400 * q) with (y + (100 * q) * 4) by lia;
        now rewrite Z_mod_plus_full).
  replace ((y + 400 * q) mod 100) with (y mod 100)
    by (replace (y + 400 * q) with (y + (4 * q) * 100) by lia;
        now rewrite Z_mod_plus_full).
  replace ((y + 400 * q) mod 400) with (y mod 400)
    by (replace (y + 400 * q) with (y + q * 400) by lia;
        now rewrite Z_mod_plus_full).
  reflexivity.
Qed.

Lemma days_before_year_period y q :
  days_before_year (y + 400 * q) = days_before_year y + DI400Y * q.
Proof.
  unfold days_before_year, DI400Y. cbv zeta.
  replace (y + 400 * q - 1) with (y - 1 + 400 * q) by lia.
  replace ((y - 1 + 400 * q) / 4) with ((y - 1) / 4 + 100 * q)
    by (replace (y - 1 + 400 * q) with (y - 1 + (100 * q) * 4) by lia;
        now rewrite Z_div_plus_full).
  replace ((y - 1 + 400 * q) / 100) with ((y - 1) / 100 + 4 * q)
    by (replace (y - 1 + 400 * q) with (y - 1 + (4 * q) * 100) by lia;
        now rewrite Z_div_plus_full).
  replace ((y - 1 + 400 * q) / 400) with ((y - 1) / 400 + q)
    by (replace (y - 1 + 400 * q) with (y - 1 + q * 400) by lia;
        now rewrite Z_div_plus_full).
  lia.
Qed.

Lemma ymd2ord_period y m d q :
  ymd2ord (y + 400 * q) m d = ymd2ord y m d + DI400Y * q.
Proof.
  unfold ymd2ord, days_before_month.
  rewrite days_before_year_period, is_leap_period. lia.
Qed.

Lemma days_in_month_period y m q :
  days_in_month (y + 400 * q) m = days_in_month y m.
Proof. unfold days_in_month. now rewrite is_leap_period. Qed.

(** Every ordinal of a date is the ordinal of its year, month and day, and
    these are a date the constructor accepts. *)
Lemma ord2ymd_valid n :
  valid_date n ->
  exists y m d,
    ord2ymd n = (y, m, d)
    /\ 1 <= y <= 9999 /\ 1 <= m <= 12 /\ 1 <= d <= days_in_month y m
    /\ ymd2ord y m d = n.
Proof.
  unfold valid_date, MAXORDINAL. intros Hn.
  pose proof (Z.div_mod (n - 1) DI400Y ltac:(discriminate)) as Hdm.
  assert (Hr : 0 <= (n - 1) mod DI400Y < DI400Y)
    by (apply Z.mod_pos_bound; reflexivity).
  rewrite ord2ymd_period.
  set (r := (n - 1) mod DI400Y) in *. set (q := (n - 1) / DI400Y) in *.
  pose proof (all_from_spec _ _ _ cycle_checked r) as Hok.
  unfold cycle_ok in Hok.
  destruct (ord2ymd (r + 1)) as [[y m] d].
  unfold DI400Y in *.
  assert (Hq : 0 <= q <= 24) by lia.
  specialize (Hok ltac:(lia)).
  rewrite !andb_true_iff, orb_true_iff in Hok.
  destruct Hok as (((((((Hy1 & Hy2) & Hy3) & Hm1) & Hm2) & Hd1) & Hd2) & He).
  exists (y + 400 * q), m, d.
  rewrite days_in_month_period, ymd2ord_period. unfold DI400Y.
  repeat split; lia.
Qed.

Lemma digit_checked : all_from digit_ok 0 10 = true.
Proof. reflexivity. Qed.

Lemma month_checked : all_from month_ok 1 12 = true.
Proof. reflexivity. Qed.

Lemma day_checked : all_from day_ok 1 31 = true.
Proof. reflexivity. Qed.

Lemma digit_val_digit k : 0 <= k <= 9 -> digit_val (digit k) = Some k.
Proof.
  intros Hk. pose proof (all_from_spec _ _ _ digit_checked k ltac:(lia)) as H.
  unfold digit_ok in H. destruct (digit_val (digit k)) as [x|]; [|discriminate].
  apply andb_true_iff in H as [H _]. f_equal. lia.
Qed.

Lemma digit_not_dash k : 0 <= k <= 9 -> Ascii.eqb (digit k) "-" = false.
Proof.
  intros Hk. pose proof (all_from_spec _ _ _ digit_checked k ltac:(lia)) as H.
  unfold digit_ok in H. destruct (digit_val (digit k)) as [x|]; [|discriminate].
  apply andb_true_iff in H as [_ H]. now apply negb_true_iff in H.
Qed.

Lemma re_m_fmt2 m :
  1 <= m <= 12 -> re_m (list_ascii_of_string (fmt2 m)) = Some m.
Proof.
  intros Hm. pose proof (all_from_spec _ _ _ month_checked m ltac:(lia)) as H.
  unfold month_ok in H.
  destruct (re_m _) as [x|]; [|discriminate].
  f_equal. lia.
Qed.

Lemma re_d_fmt2 d :
  1 <= d <= 31 -> re_d (list_ascii_of_string (fmt2 d)) = Some d.
Proof.
  intros Hd. pose proof (all_from_spec _ _ _ day_checked d ltac:(lia)) as H.
  unfold day_ok in H.
  destruct (re_d _) as [x|]; [|discriminate].
  f_equal. lia.
Qed.

Lemma days_in_month_le_31 y m : days_in_month y m <= 31 \/ ~ 1 <= m <= 12.
Proof.
  destruct (Z_le_dec 1 m), (Z_le_dec m 12); try (right; lia).
  left. unfold days_in_month. destruct ((m =? 2) && is_leap y); [lia|].
  unfold DAYS_IN_MONTH.
  assert (Hc : m = 1 \/ m = 2 \/ m = 3 \/ m = 4 \/ m = 5 \/ m = 6 \/ m = 7
               \/ m = 8 \/ m = 9 \/ m = 10 \/ m = 11 \/ m = 12) by lia.
  repeat (destruct Hc as [->|Hc]; [now vm_compute|]). subst. now vm_compute.
Qed.

(** Reading back what [str] printed. *)
Lemma strptime_isoformat d : valid_date d -> strptime (isoformat d) = Some d.
Proof.
  intros Hd.
  destruct (ord2ymd_valid d Hd) as (y & m & dd & Heq & Hy & Hm & Hdd & Hord).
  unfold isoformat. rewrite Heq.
  destruct (days_in_month_le_31 y m) as [H31|]; [|lia].
  pose proof (re_m_fmt2 m Hm) as Hrm.
  pose proof (re_d_fmt2 dd ltac:(lia)) as Hrd.
  unfold strptime, fmt4. unfold fmt2 in *.
  cbn [String.append list_ascii_of_string] in *.
  rewrite !digit_val_digit by (Z.div_mod_to_equations; lia).
  cbn [split_dash].
  rewrite !digit_not_dash by (Z.div_mod_to_equations; lia).
  replace (Ascii.eqb "-" "-") with true by reflexivity.
  rewrite Hrm, Hrd.
  replace (1000 * (y / 1000) + 100 * (y / 100 mod 10)
           + 10 * (y mod 100 / 10) + y mod 100 mod 10) with y
    by (Z.div_mod_to_equations; lia).
  cbn [andb].
  destruct (Z.leb_spec 1 y); [|lia].
  destruct (Z.leb_spec dd (days_in_month y m)); [|lia].
  cbn [andb]. now rewrite Hord.
Qed.

End calendar_facts.

Section Roundtrip.

Context {num : Type} {arith : Arith num}.

Lemma of_record_to_record (t : Transaction num) :
  calendar.valid_date (tx_date t) -> of_record (to_record t) = Some t.
Proof.
  intros Hd. unfold of_record, to_record. cbn [Json.date].
  rewrite (calendar_facts.strptime_isoformat _ Hd). now destruct t.
Qed.

Lemma of_records_to_records (df : DataFrame num) :
  Forall (fun t => calendar.valid_date (tx_date t)) df ->
  of_records (map to_record df) = Some df.
Proof.
  induction 1 as [|t r Ht _ IH]; [reflexivity|].
  cbn [map of_records]. now rewrite (of_record_to_record t Ht), IH.
Qed.

(** C8: saving a store whose dates are dates and loading the file again
    gives the same transactions, balance and next id; saving leaves the
    session as it was. *)
Theorem save_load_roundtrip (w : World num) :
  valid_store (session w) ->
  exists w',
    save_data w = (Returned tt, w')
    /\ session w' = session w
    /\ load_data (cashflow_data_json w') = session w.
Proof.
  intros Hv. eexists. split; [reflexivity|]. split; [reflexivity|].
  cbn [cashflow_data_json]. unfold load_data, dump. cbn [Json.transactions].
  rewrite (of_records_to_records _ Hv). cbn. now destruct (session w).
Qed.

End Roundtrip.

(** * The statements on the sample data *)

(** C1 as first stated fails 30 days out: with the rent due in 30 days and a
    balance of 1000, the first row below zero is 30 days from today and the
    score is 60, not 90. *)
Lemma health_score_at_30_days :
  let projection_df :=
    calculate_cash_flow_projection sample.today [sample.rent] 1000 in
  let metrics := calculate_health_metrics sample.today projection_df 1000 in
  days_until_danger metrics = Some 30
  /\ health_score metrics = 60
  /\ health_score metrics <> 90.
Proof. vm_compute. repeat split. discriminate. Qed.

Lemma health_score_piecewise_sample :
  health_score
    (calculate_health_metrics sample.today
       (calculate_cash_flow_projection sample.today [sample.rent] 1000) 1000)
  = 60.
Proof.
  destruct (health_score_piecewise sample.today
              (calculate_cash_flow_projection sample.today [sample.rent] 1000)
              1000) as (_ & _ & _ & _ & H30 & _).
  apply H30. reflexivity.
Defined.

Lemma health_score_range_sample :
  health_score
    (calculate_health_metrics sample.today
       (calculate_cash_flow_projection sample.today [sample.overdue] 1000)
       1000)
  = 0.
Proof.
  destruct (health_score_range sample.today
              (calculate_cash_flow_projection sample.today [sample.overdue]
                 1000)
              1000) as [_ Hneg].
  apply (Hneg (-10)); [reflexivity | lia].
Defined.

Lemma projection_one_point_per_day_sample :
  Z.of_nat
    (List.length
       (calculate_cash_flow_projection sample.today
          [sample.rent; sample.invoice] 1000))
  = 27.
Proof.
  destruct (projection_one_point_per_day sample.today
              [sample.rent; sample.invoice] 1000) as [_ Hd].
  destruct (Hd ltac:(discriminate))
    as (mn & mx & daily & [Hmn Hmn'] & [Hmx Hmx'] & _ & _ & _ & Hlen).
  rewrite Hlen.
  pose proof (Hmn' sample.invoice ltac:(right; now left)) as H1.
  pose proof (Hmx' sample.rent ltac:(now left)) as H2.
  cbn in Hmn, Hmx, H1, H2. unfold sample.today in *. lia.
Defined.

Lemma projection_running_balance_sample :
  exists leading daily,
    calculate_cash_flow_projection sample.today [sample.rent; sample.invoice]
      1000
    = leading :: daily
    /\ balance leading = 1000
    /\ nth_error (map balance daily) 0 = Some 6000
    /\ nth_error (map balance daily) 25 = Some 4000
    /\ forall i p, nth_error daily i = Some p ->
         balance p = 1000 + sum_Z (map net_flow (firstn (S i) daily)).
Proof.
  destruct projection_running_balance as [Hgen Hexact].
  destruct (Hgen Z exact sample.today [sample.rent; sample.invoice] 1000)
    as (leading & daily & Hcalc & Hlead & _).
  exists leading, daily. split; [exact Hcalc|]. split; [exact Hlead|].
  pose proof (Hexact _ _ _ _ _ Hcalc) as Hrows.
  vm_compute in Hcalc. injection Hcalc as _ <-.
  split; [reflexivity|]. split; [reflexivity|]. exact Hrows.
Defined.

(** C4 as first stated fails on the empty store: a what-if amount of 500
    adds no row. *)
Lemma what_if_on_empty_store :
  0 < 500
  /\ apply_scenarios sample.today [] "Base Case" 0 500 = []
  /\ ~ In (new_expense sample.today 500)
          (apply_scenarios sample.today [] "Base Case" 0 500).
Proof. split; [lia|]. split; [reflexivity|]. intros []. Qed.

Lemma what_if_injection_sample :
  exists synthetic,
    Permutation
      (scenario_rows [sample.rent] "Base Case" 0 ++ [synthetic])
      (apply_scenarios sample.today [sample.rent] "Base Case" 0 500)
    /\ tx_type synthetic = "expense"
    /\ tx_status synthetic = "projected"
    /\ tx_probability synthetic = 100
    /\ tx_date synthetic = sample.today + 3
    /\ tx_description synthetic = "What-If Expense"
    /\ tx_amount synthetic = 500.
Proof.
  apply (what_if_injection sample.today [sample.rent] "Base Case" 0 500);
    [discriminate | lia].
Defined.

Lemma payment_delays_frame_sample :
  Permutation
    (apply_scenarios sample.today [sample.rent; sample.invoice]
       "Payment Delays" 0 500)
    (apply_scenarios sample.today [sample.rent; sample.invoice]
       "Base Case" 0 500).
Proof.
  apply (payment_delays_frame sample.today [sample.rent; sample.invoice] 0 500).
Defined.

Lemma what_if_id_collision_sample :
  let out :=
    apply_scenarios sample.today [sample.rent; sample.late_row] "Base Case"
      0 500 in
  In (new_expense sample.today 500) out
  /\ tx_id (new_expense sample.today 500) = 9999
  /\ ~ NoDup (map tx_id out).
Proof.
  apply (what_if_id_collision sample.today [sample.rent; sample.late_row]
           "Base Case" 0 500 sample.late_row);
    [lia | right; now left | reflexivity].
Defined.

(** C6 as first stated fails for [delete]: no row of the sample store has
    id 7, and deleting id 7 returns normally, the world as before. *)
Lemma delete_unknown_id_returns :
  ~ In 7 (map tx_id (session_state.transactions_df (session sample.world)))
  /\ delete_transaction 7 sample.world = (Returned tt, sample.world).
Proof.
  split; [|reflexivity]. cbn. intros [H|[]]. discriminate.
Qed.

(** On the sample store [update] of the unknown id 7 raises an IndexError
    and [delete] returns; after Clear All Data and a restart of the page the
    session frame is the one built from the empty list of the file, and both
    raise a KeyError. *)
Lemma unknown_id_update_delete_sample :
  (update_transaction 7 "income" 50 sample.today "Gift" "confirmed" 100
     sample.world
   = (Raised IndexError, sample.world)
   /\ delete_transaction 7 sample.world
      = (Returned tt,
         {| session := session sample.world;
            has_columns := true;
            cashflow_data_json := Data (dump (session sample.world)) |}))
  /\ (update_transaction 7 "income" 50 sample.today "Gift" "confirmed" 100
        cases.restarted
      = (Raised KeyError, cases.restarted)
      /\ delete_transaction 7 cases.restarted
         = (Raised KeyError, cases.restarted)).
Proof.
  split.
  - apply (unknown_id_update_delete sample.world 7);
      [cbn; intros [H|[]]; discriminate | reflexivity].
  - apply (unknown_id_update_delete cases.restarted 7);
      [intros [] | reflexivity].
Defined.



Lemma save_load_roundtrip_sample :
  exists w',
    save_data sample.world = (Returned tt, w')
    /\ session w' = session sample.world
    /\ load_data (cashflow_data_json w') = session sample.world.
Proof.
  apply (save_load_roundtrip sample.world).
  apply Forall_cons; [|apply Forall_nil].
  unfold calendar.valid_date, calendar.MAXORDINAL. cbn. lia.
Defined.

(** * Store operations: what each one changes *)

Section StoreOperations.

Context {num : Type} {arith : Arith num}.
Implicit Types (df : DataFrame num) (s : session_state.t num) (w : World num).

(** The first position listed by [index_of_id] holds a row of that id, and
    no earlier row has it. *)
Lemma index_of_id_first transaction_id df pos idx rest :
  index_of_id transaction_id df pos = idx :: rest ->
  exists pre t post,
    df = pre ++ t :: post /\ tx_id t = transaction_id
    /\ ~ In transaction_id (map tx_id pre)
    /\ idx = (pos + List.length pre)%nat.
Proof.
  revert pos. induction df as [|u r IH]; intros pos; cbn [index_of_id];
    [discriminate|].
  destruct (Z.eqb_spec (tx_id u) transaction_id) as [Heq|Hne].
  - intros [= <- _]. exists [], u, r. cbn. repeat split; auto; lia.
  - intros H. destruct (IH _ H) as (pre & t & post & -> & Hid & Hpre & Hidx).
    exists (u :: pre), t, post. cbn. repeat split; auto.
    + intros [H1|H1]; [congruence | contradiction].
    + lia.
Qed.

Lemma index_of_id_known transaction_id df pos :
  In transaction_id (map tx_id df) ->
  index_of_id transaction_id df pos <> [].
Proof.
  revert pos. induction df as [|u r IH]; intros pos; cbn; [contradiction|].
  destruct (Z.eqb_spec (tx_id u) transaction_id) as [Heq|Hne];
    [discriminate|].
  intros [H|H]; [congruence | now apply IH].
Qed.

Lemma set_row_at (pre : DataFrame num) t post row :
  set_row (List.length pre) row (pre ++ t :: post) = pre ++ row :: post.
Proof. induction pre as [|u r IH]; cbn; [reflexivity | now rewrite IH]. Qed.

(** A frame with rows has its id column. *)
Lemma id_column_rows w :
  session_state.transactions_df (session w) <> [] -> id_column w = true.
Proof.
  unfold id_column.
  destruct (session_state.transactions_df (session w)); [congruence|].
  reflexivity.
Qed.

Lemma store_ok_ids s s' :
  map tx_id (session_state.transactions_df s')
  = map tx_id (session_state.transactions_df s) ->
  session_state.next_id s' = session_state.next_id s ->
  store_ok s -> store_ok s'.
Proof.
  intros Hids Hnext [Hnd Hlt]. split; [now rewrite Hids|].
  intros t Hin. apply (in_map tx_id) in Hin. rewrite Hids in Hin.
  apply in_map_iff in Hin as (u & Hu & Hin). rewrite Hnext, <- Hu.
  now apply Hlt.
Qed.

Lemma store_ok_add s row :
  tx_id row = session_state.next_id s ->
  store_ok s ->
  store_ok {| session_state.transactions_df :=
                session_state.transactions_df s ++ [row];
              session_state.current_balance := session_state.current_balance s;
              session_state.next_id := session_state.next_id s + 1 |}.
Proof.
  intros Hrow [Hnd Hlt]. split; cbn.
  - rewrite map_app. cbn [map]. rewrite Hrow.
    apply NoDup_app; [exact Hnd | repeat constructor; intros [] |].
    intros a Ha [<-|[]]. apply in_map_iff in Ha as (t & Ht & Hin).
    specialize (Hlt t Hin). lia.
  - intros t Hin. apply in_app_or in Hin as [Hin|[<-|[]]].
    + specialize (Hlt t Hin). lia.
    + lia.
Qed.

Lemma store_ok_filter s (keep : Transaction num -> bool) :
  store_ok s ->
  store_ok (with_df s (filter keep (session_state.transactions_df s))).
Proof.
  intros [Hnd Hlt]. split; cbn.
  - clear Hlt. induction (session_state.transactions_df s) as [|t r IH];
      [constructor|].
    cbn [map filter] in *. apply NoDup_cons_iff in Hnd as [Hni Hnd].
    destruct (keep t); [|now apply IH].
    cbn [map]. constructor; [|now apply IH].
    intros Hin. apply Hni. apply in_map_iff in Hin as (u & Hu & Hin).
    apply filter_In in Hin as [Hin _]. rewrite <- Hu. now apply in_map.
  - intros t Hin. apply filter_In in Hin as [Hin _]. now apply Hlt.
Qed.

(** X1: [add_transaction] returns; it appends one row that carries the old
    [next_id] and the given fields, moves [next_id] up by one, keeps the
    balance and writes the new session to the file; the session frame has
    its columns afterwards.  When the ids were pairwise distinct and below
    [next_id], they still are. *)
Theorem add_transaction_appends w trans_type amount date description status
    probability :
  let s := session w in
  let row :=
    {| tx_id := session_state.next_id s; tx_type := trans_type;
       tx_amount := amount; tx_date := date; tx_description := description;
       tx_status := status; tx_probability := probability |} in
  let s' :=
    {| session_state.transactions_df :=
         session_state.transactions_df s ++ [row];
       session_state.current_balance := session_state.current_balance s;
       session_state.next_id := session_state.next_id s + 1 |} in
  add_transaction trans_type amount date description status probability w
  = (Returned tt,
     {| session := s'; has_columns := true;
        cashflow_data_json := Data (dump s') |})
  /\ (store_ok s -> store_ok s').
Proof.
  intros s row s'. split; [reflexivity|].
  apply store_ok_add. reflexivity.
Qed.

(** X2: on an id the store holds, [update_transaction] returns; it replaces
    the first row of that id by the given fields, leaves every other row, the
    balance and [next_id] as they were, and writes the new session to the
    file. *)
Theorem update_transaction_known w transaction_id trans_type amount date
    description status probability :
  let s := session w in
  let row :=
    {| tx_id := transaction_id; tx_type := trans_type; tx_amount := amount;
       tx_date := date; tx_description := description; tx_status := status;
       tx_probability := probability |} in
  In transaction_id (map tx_id (session_state.transactions_df s)) ->
  exists pre old post,
    session_state.transactions_df s = pre ++ old :: post
    /\ tx_id old = transaction_id
    /\ ~ In transaction_id (map tx_id pre)
    /\ update_transaction transaction_id trans_type amount date description
         status probability w
       = (Returned tt,
          {| session := with_df s (pre ++ row :: post);
             has_columns := has_columns w;
             cashflow_data_json :=
               Data (dump (with_df s (pre ++ row :: post))) |}).
Proof.
  intros s row Hin.
  destruct (index_of_id transaction_id (session_state.transactions_df s) 0)
    as [|idx rest] eqn:Hidx.
  { now apply index_of_id_known with (pos := 0%nat) in Hin. }
  destruct (index_of_id_first _ _ _ _ _ Hidx)
    as (pre & old & post & Hdf & Hid & Hpre & Hpos).
  exists pre, old, post. repeat split; try assumption.
  assert (Hcol : id_column w = true).
  { apply id_column_rows. fold s. rewrite Hdf. now destruct pre. }
  unfold update_transaction, bind, getitem_id. rewrite Hcol.
  unfold get_session. fold s. rewrite Hidx.
  cbn in Hpos. subst idx. rewrite Hdf, set_row_at. reflexivity.
Qed.

(** X3: on a session frame that has an id column, [delete_transaction]
    returns; it keeps, in order, exactly the rows of another id, so the id is
    gone afterwards; balance and [next_id] stay (a deleted id is not given
    out again); the file holds the new session; and deleting the same id once
    more changes nothing.  On a session frame without columns it raises a
    [KeyError] and changes nothing. *)
Theorem delete_transaction_removes w transaction_id :
  let s := session w in
  let df' :=
    filter (fun t => negb (tx_id t =? transaction_id))
           (session_state.transactions_df s) in
  let w' :=
    {| session := with_df s df';
       has_columns := true;
       cashflow_data_json := Data (dump (with_df s df')) |} in
  (id_column w = true ->
   delete_transaction transaction_id w = (Returned tt, w')
   /\ (forall t, In t df'
                 <-> In t (session_state.transactions_df s)
                     /\ tx_id t <> transaction_id)
   /\ ~ In transaction_id (map tx_id df')
   /\ session_state.next_id (session w') = session_state.next_id s
   /\ session_state.current_balance (session w')
      = session_state.current_balance s
   /\ delete_transaction transaction_id w' = (Returned tt, w'))
  /\ (id_column w = false ->
      delete_transaction transaction_id w = (Raised KeyError, w)).
Proof.
  intros s df' w'.
  split; intros Hcol;
    [|unfold delete_transaction, bind, getitem_id; now rewrite Hcol].
  assert (Hin : forall t, In t df'
                <-> In t (session_state.transactions_df s)
                    /\ tx_id t <> transaction_id).
  { intros t. unfold df'. rewrite filter_In, negb_true_iff, Z.eqb_neq.
    reflexivity. }
  assert (Hgone : ~ In transaction_id (map tx_id df')).
  { intros H. apply in_map_iff in H as (t & Ht & H). apply Hin in H. tauto. }
  split.
  { unfold delete_transaction, bind, getitem_id. now rewrite Hcol. }
  split; [exact Hin|]. split; [exact Hgone|].
  split; [reflexivity|]. split; [reflexivity|].
  assert (Hcol' : id_column w' = true).
  { unfold id_column, w'. cbn [session has_columns].
    now destruct (session_state.transactions_df (with_df s df')). }
  unfold delete_transaction, bind, getitem_id. rewrite Hcol'.
  unfold get_session, put_session, put_columns, save_data, bind,
    get_session, write_file, w'. cbn [session cashflow_data_json has_columns
    with_df session_state.transactions_df session_state.current_balance
    session_state.next_id].
  assert (Hff : filter (fun t => negb (tx_id t =? transaction_id)) df' = df').
  { unfold df'. clear. induction (session_state.transactions_df s) as [|t r IH];
      [reflexivity|].
    cbn [filter]. destruct (negb (tx_id t =? transaction_id)) eqn:E;
      [|exact IH].
    cbn [filter]. now rewrite E, IH. }
  unfold with_df. cbn. now rewrite Hff.
Qed.

(** Unfolding of the store procedures down to the world they leave. *)
Ltac run_action :=
  unfold add_transaction, delete_transaction, update_balance, clear_all_data,
    save_data, bind, get_session, put_session, put_columns, write_file, ret;
  cbn [fst snd session cashflow_data_json has_columns].

(** Each operation keeps the ids in order, leaves the world alone when it
    raises and the file in step with the session when it returns. *)
Lemma run_op_keeps o w :
  store_ok (session w) ->
  store_ok (session (snd (run_op o w)))
  /\ (forall e, fst (run_op o w) = Raised e -> snd (run_op o w) = w)
  /\ (fst (run_op o w) = Returned tt -> in_sync (snd (run_op o w))).
Proof.
  intros Hok. destruct o; cbn [run_op].
  - run_action. split; [now apply store_ok_add|].
    split; [intros e; discriminate | intros _; reflexivity].
  - unfold update_transaction, bind, getitem_id.
    destruct (id_column w);
      [|cbn; split; [exact Hok|]; split; [reflexivity | discriminate]].
    unfold get_session.
    destruct (index_of_id transaction_id
                (session_state.transactions_df (session w)) 0)
      as [|idx rest] eqn:Hidx.
    + cbn. split; [exact Hok|]. split; [reflexivity | discriminate].
    + run_action. split; [|split; [intros e; discriminate | intros _; reflexivity]].
      destruct (index_of_id_first _ _ _ _ _ Hidx)
        as (pre & old & post & Hdf & Hid & Hpre & Hpos).
      cbn in Hpos. subst idx.
      apply (store_ok_ids (session w)); [|reflexivity|exact Hok].
      cbn. rewrite Hdf, set_row_at, !map_app. cbn. now rewrite Hid.
  - unfold delete_transaction, bind, getitem_id.
    destruct (id_column w);
      [|cbn; split; [exact Hok|]; split; [reflexivity | discriminate]].
    run_action. split; [now apply store_ok_filter|].
    split; [intros e; discriminate | intros _; reflexivity].
  - run_action. split; [now apply (store_ok_ids (session w))|].
    split; [intros e; discriminate | intros _; reflexivity].
  - run_action. split; [split; [constructor | intros t []]|].
    split; [intros e; discriminate | intros _; reflexivity].
Qed.

(** X4: over any sequence of add, update, delete, balance and clear
    operations, up to the end or the first one that raises, the ids of the
    store stay pairwise distinct and below [next_id]; a file in step with the
    session stays so, and is so whenever a non-empty sequence has returned. *)
Theorem store_operations_keep_ids l w :
  store_ok (session w) ->
  store_ok (session (snd (run_ops l w)))
  /\ (in_sync w -> in_sync (snd (run_ops l w)))
  /\ (l <> [] -> fst (run_ops l w) = Returned tt ->
      in_sync (snd (run_ops l w))).
Proof.
  revert w. induction l as [|o rest IH]; intros w Hok.
  - cbn. split; [exact Hok|]. split; [auto | congruence].
  - destruct (run_op_keeps o w Hok) as (Hok1 & Hraise & Hsync).
    cbn [run_ops]. unfold bind.
    destruct (run_op o w) as [[[]|e] w1] eqn:Hop; cbn [fst snd] in *.
    + destruct (IH w1 Hok1) as (Hok2 & Hkeep & Hnew).
      split; [exact Hok2|]. split; [intros _; apply Hkeep; now apply Hsync|].
      intros _ Hret. apply Hkeep. now apply Hsync.
    + rewrite (Hraise e eq_refl). split; [exact Hok|].
      split; [auto | discriminate].
Qed.

(** X21: Clear All Data leaves a session on which [delete] of any id returns
    and [update] of any id raises an [IndexError].  Once the page has been
    restarted on the file it wrote, the session holds the same store but its
    frame is the one built from the empty list of the file, without columns:
    [update] and [delete] of any id then raise a [KeyError] and change
    nothing, until a row is added. *)
Theorem restart_after_clear w :
  let cleared := snd (clear_all_data w) in
  let restarted := initialize_session_state (cashflow_data_json cleared) in
  fst (clear_all_data w) = Returned tt
  /\ session cleared = default_store
  /\ session restarted = default_store
  /\ (forall transaction_id,
        delete_transaction transaction_id cleared = (Returned tt, cleared))
  /\ (forall transaction_id trans_type amount date description status
             probability,
        update_transaction transaction_id trans_type amount date description
          status probability cleared
        = (Raised IndexError, cleared))
  /\ (forall transaction_id,
        delete_transaction transaction_id restarted
        = (Raised KeyError, restarted))
  /\ (forall transaction_id trans_type amount date description status
             probability,
        update_transaction transaction_id trans_type amount date description
          status probability restarted
        = (Raised KeyError, restarted))
  /\ (forall trans_type amount date description status probability,
        id_column
          (snd (add_transaction trans_type amount date description status
                  probability restarted))
        = true).
Proof.
  intros cleared restarted. repeat split.
Qed.

End StoreOperations.

(** * Health metrics and their presentation *)

(** Case analysis on the comparisons of a goal about the score and its
    bands. *)
Ltac by_cmp :=
  repeat match goal with
         | |- context [?a <? ?b] => destruct (Z.ltb_spec a b)
         | |- context [?a <=? ?b] => destruct (Z.leb_spec a b)
         | |- context [?a =? ?b] => destruct (Z.eqb_spec a b)
         | |- context [Z.max ?a ?b] => destruct (Z.max_spec a b) as [[? ->]|[? ->]]
         end.



(** X5: a later danger date never gives a lower score, and no danger date
    gives the highest score of all. *)
Theorem health_score_monotone {num : Type} {arith : Arith num} today
    (projection_df projection_df' : list (Point num))
    current_balance current_balance' :
  let m := calculate_health_metrics today projection_df current_balance in
  let m' := calculate_health_metrics today projection_df' current_balance' in
  (forall d d', days_until_danger m = Some d -> days_until_danger m' = Some d' ->
                d <= d' -> health_score m <= health_score m')
  /\ (days_until_danger m' = None -> health_score m <= health_score m').
Proof.
  cbn [calculate_health_metrics days_until_danger health_score].
  unfold calculate_health_metrics. cbn [days_until_danger health_score].
  split.
  - intros d d' -> -> Hle. cbn [score_of]. by_cmp; lia.
  - intros ->. destruct (danger_days today projection_df); cbn [score_of];
      by_cmp; lia.
Qed.


(** X7: the red page background, the [health-poor] colour of the score, the
    [balance-danger] card and the Cash Flow Alert go together: each shows
    exactly when the danger date is less than 30 days away.  The green
    background shows exactly when there is no danger date or it is at least
    50 days away. *)
Theorem alert_and_colours_agree {num : Type} {arith : Arith num} today
    (projection_df : list (Point num)) current_balance :
  let m := calculate_health_metrics today projection_df current_balance in
  (critical_alert m = true <-> get_background_color m = "#FEF2F2")
  /\ (critical_alert m = true
      <-> get_health_color_class (health_score m) = "health-poor")
  /\ (critical_alert m = true
      <-> get_balance_card_class m = "balance-danger")
  /\ (get_background_color m = "#F0FDF4"
      <-> match days_until_danger m with
          | Some d => 50 <= d
          | None => True
          end).
Proof.
  intros m. subst m.
  unfold critical_alert, get_background_color, get_health_color_class,
    get_balance_card_class, calculate_health_metrics.
  cbn [days_until_danger health_score].
  destruct (danger_days today projection_df) as [d|].
  - set (sc := score_of (Some d)).
    assert (Hs : (d < 30 /\ sc < 60) \/ (30 <= d < 50 /\ 60 <= sc < 80)
                 \/ (50 <= d /\ 80 <= sc))
      by (subst sc; cbn [score_of]; by_cmp; lia).
    clearbody sc.
    destruct (Z.ltb_spec d 30), (Z.leb_spec 80 sc), (Z.leb_spec 60 sc);
      try lia;
      repeat split; intros; try reflexivity; try easy; lia.
  - cbn [score_of]. cbn.
    repeat split; intros; try reflexivity; easy.
Qed.

(** X8: the Days Until Danger card says Safe runway exactly when there is no
    danger date or it is today (0 days, which Python counts as false); in
    that second case the alert is on and the score is 0 while the card is
    shown in the [health-excellent] colour. *)
Theorem danger_card_on_day_zero {num : Type} {arith : Arith num} today
    (projection_df : list (Point num)) current_balance :
  let m := calculate_health_metrics today projection_df current_balance in
  (danger_caption m = "Safe runway"
   <-> days_until_danger m = None \/ days_until_danger m = Some 0)
  /\ (days_until_danger m = Some 0 ->
      critical_alert m = true /\ health_score m = 0
      /\ danger_class m = "health-excellent"
      /\ danger_caption m = "Safe runway").
Proof.
  intros m. subst m.
  unfold danger_caption, danger_class, critical_alert, truthy,
    calculate_health_metrics.
  cbn [days_until_danger health_score].
  destruct (danger_days today projection_df) as [d|].
  - split.
    + destruct (Z.eqb_spec d 0) as [->|Hne]; cbn [negb]; split.
      * now right.
      * reflexivity.
      * discriminate.
      * intros [H|[= H]]; [discriminate | contradiction].
    + intros [= ->]. repeat split.
  - split; [split; [now left | reflexivity] | discriminate].
Qed.

(** * Projection in exact arithmetic: order of the rows, final balance,
      scenarios *)

Lemma sum_amount_cons (t : Transaction Z) (l : DataFrame Z) :
  sum_amount (t :: l) = tx_amount t + sum_amount l.
Proof. reflexivity. Qed.

Lemma sum_filter_perm (f : Transaction Z -> bool) l l' :
  Permutation l l' -> sum_amount (filter f l) = sum_amount (filter f l').
Proof.
  induction 1 as [|t l l' _ IH|t u l|l l' l'' _ IH1 _ IH2].
  - reflexivity.
  - cbn [filter]. destruct (f t); rewrite ?sum_amount_cons; lia.
  - cbn [filter]. destruct (f t), (f u); rewrite ?sum_amount_cons; lia.
  - congruence.
Qed.

Section Order.

Context {num : Type}.
Implicit Types df : DataFrame num.

Lemma earliest_unique df m m' : earliest m df -> earliest m' df -> m = m'.
Proof.
  intros [Hin Hle] [Hin' Hle'].
  apply in_map_iff in Hin as (t & <- & Ht).
  apply in_map_iff in Hin' as (t' & <- & Ht').
  specialize (Hle _ Ht'). specialize (Hle' _ Ht). lia.
Qed.

Lemma latest_unique df m m' : latest m df -> latest m' df -> m = m'.
Proof.
  intros [Hin Hle] [Hin' Hle'].
  apply in_map_iff in Hin as (t & <- & Ht).
  apply in_map_iff in Hin' as (t' & <- & Ht').
  specialize (Hle _ Ht'). specialize (Hle' _ Ht). lia.
Qed.

Lemma earliest_perm df df' m :
  Permutation df df' -> earliest m df -> earliest m df'.
Proof.
  intros Hp [Hin Hle]. split.
  - eapply Permutation_in; [apply Permutation_map, Hp | exact Hin].
  - intros t Ht. apply Hle.
    eapply Permutation_in; [apply Permutation_sym, Hp | exact Ht].
Qed.

Lemma latest_perm df df' m :
  Permutation df df' -> latest m df -> latest m df'.
Proof.
  intros Hp [Hin Hle]. split.
  - eapply Permutation_in; [apply Permutation_map, Hp | exact Hin].
  - intros t Ht. apply Hle.
    eapply Permutation_in; [apply Permutation_sym, Hp | exact Ht].
Qed.

Lemma date_min_perm df df' : Permutation df df' -> date_min df = date_min df'.
Proof.
  intros Hp.
  destruct (date_min df) as [m|] eqn:E, (date_min df') as [m'|] eqn:E'.
  - f_equal. apply (earliest_unique df').
    + apply (earliest_perm df); [exact Hp | now apply date_min_earliest].
    + now apply date_min_earliest.
  - destruct df'; [|discriminate]. apply Permutation_sym, Permutation_nil in Hp.
    subst. discriminate.
  - destruct df; [|discriminate]. apply Permutation_nil in Hp.
    subst. discriminate.
  - reflexivity.
Qed.

Lemma date_max_perm df df' : Permutation df df' -> date_max df = date_max df'.
Proof.
  intros Hp.
  destruct (date_max df) as [m|] eqn:E, (date_max df') as [m'|] eqn:E'.
  - f_equal. apply (latest_unique df').
    + apply (latest_perm df); [exact Hp | now apply date_max_latest].
    + now apply date_max_latest.
  - destruct df'; [|discriminate]. apply Permutation_sym, Permutation_nil in Hp.
    subst. discriminate.
  - destruct df; [|discriminate]. apply Permutation_nil in Hp.
    subst. discriminate.
  - reflexivity.
Qed.

End Order.

Lemma daily_loop_perm (df df' : DataFrame Z) days cb :
  Permutation df df' -> daily_loop df days cb = daily_loop df' days cb.
Proof.
  intros Hp. revert cb. induction days as [|d rest IH]; intros cb;
    [reflexivity|].
  cbn [daily_loop]. rewrite !filter_filter.
  rewrite (sum_filter_perm (fun t => on_date d t && is_type "income" t) _ _ Hp).
  rewrite (sum_filter_perm (fun t => on_date d t && is_type "expense" t) _ _ Hp).
  now rewrite IH.
Qed.

Lemma projection_perm today (df df' : DataFrame Z) starting_balance :
  Permutation df df' ->
  calculate_cash_flow_projection today df starting_balance
  = calculate_cash_flow_projection today df' starting_balance.
Proof.
  intros Hp. unfold calculate_cash_flow_projection.
  rewrite (date_min_perm _ _ Hp), (date_max_perm _ _ Hp).
  destruct df as [|t r], df' as [|t' r']; try reflexivity;
    try (apply Permutation_nil in Hp; discriminate);
    try (apply Permutation_sym, Permutation_nil in Hp; discriminate).
  destruct (date_min (t' :: r')), (date_max (t' :: r')); try reflexivity.
  f_equal. now apply daily_loop_perm.
Qed.

(** X9: in exact arithmetic the projection does not depend on the order of
    the rows.  So the sort at the end of [apply_scenarios] has no effect on
    it, and the Base Case without a what-if amount projects like the store
    itself.  In binary64 the order of the rows of one day matters: incomes of
    0.1, 0.2 and 0.3 on one day give a balance of 0.6000000000000001, and of
    0.6 when the rows come in the opposite order. *)
Theorem projection_ignores_row_order `{SortValues Z} today (df : DataFrame Z)
    starting_balance :
  (forall df', Permutation df df' ->
     calculate_cash_flow_projection today df starting_balance
     = calculate_cash_flow_projection today df' starting_balance)
  /\ (forall scenario_type delay_days what_if_expense, df <> [] ->
        calculate_cash_flow_projection today
          (apply_scenarios today df scenario_type delay_days what_if_expense)
          starting_balance
        = calculate_cash_flow_projection today
            (what_if_rows today (scenario_rows df scenario_type delay_days)
               what_if_expense)
            starting_balance)
  /\ (forall delay_days,
        calculate_cash_flow_projection today
          (apply_scenarios today df "Base Case" delay_days 0) starting_balance
        = calculate_cash_flow_projection today df starting_balance)
  /\ (Permutation floats.one_day floats.one_day_reordered
      /\ map balance
           (@calculate_cash_flow_projection float binary64 sample.today
              floats.one_day 0%float)
         = [0%float; 0.6000000000000001%float]
      /\ map balance
           (@calculate_cash_flow_projection float binary64 sample.today
              floats.one_day_reordered 0%float)
         = [0%float; 0.6%float]
      /\ @calculate_cash_flow_projection float binary64 sample.today
           floats.one_day 0%float
         <> @calculate_cash_flow_projection float binary64 sample.today
              floats.one_day_reordered 0%float).
Proof.
  split; [intros df'; apply projection_perm|]. split; [|split].
  - intros st dd w Hne. apply projection_perm, Permutation_sym.
    now apply apply_scenarios_perm.
  - intros dd. apply projection_perm, Permutation_sym.
    apply (apply_scenarios_no_what_if today df "Base Case" dd).
  - split.
    { unfold floats.one_day, floats.one_day_reordered.
      eapply perm_trans; [apply perm_skip, perm_swap|].
      eapply perm_trans; [apply perm_swap|].
      apply perm_skip, perm_swap. }
    split; [vm_compute; reflexivity|]. split; [vm_compute; reflexivity|].
    intros Heq.
    apply (f_equal (fun l => match map balance l with
                             | [_; b] => PrimFloat.eqb b 0.6%float
                             | _ => false
                             end)) in Heq.
    vm_compute in Heq. discriminate Heq.
Qed.

(** ** The balance the projection ends on *)

Lemma sum_Z_add (f g : Z -> Z) days :
  sum_Z (map (fun d => f d + g d) days)
  = sum_Z (map f days) + sum_Z (map g days).
Proof.
  induction days as [|d r IH]; cbn [map sum_Z fold_right]; [reflexivity|].
  fold (sum_Z (map (fun d => f d + g d) r)). fold (sum_Z (map f r)).
  fold (sum_Z (map g r)). lia.
Qed.

Lemma sum_Z_pick x a days :
  NoDup days ->
  sum_Z (map (fun d => if x =? d then a else 0) days)
  = if in_dec Z.eq_dec x days then a else 0.
Proof.
  induction 1 as [|d r Hni Hnd IH]; [reflexivity|].
  cbn [map sum_Z fold_right].
  fold (sum_Z (map (fun d => if x =? d then a else 0) r)). rewrite IH.
  destruct (Z.eqb_spec x d) as [->|Hne].
  - destruct (in_dec Z.eq_dec d r); [contradiction|].
    destruct (in_dec Z.eq_dec d (d :: r)) as [_|Hn]; [lia|].
    exfalso. apply Hn. now left.
  - destruct (in_dec Z.eq_dec x r) as [Hin|Hn],
             (in_dec Z.eq_dec x (d :: r)) as [Hin'|Hn']; try lia.
    + exfalso. apply Hn'. now right.
    + destruct Hin' as [->|Hin']; [congruence | contradiction].
Qed.

Lemma booked_over_days ty (df : DataFrame Z) days :
  NoDup days -> (forall t, In t df -> In (tx_date t) days) ->
  sum_Z (map (fun d => booked ty d df) days) = total ty df.
Proof.
  intros Hnd. unfold booked, total.
  induction df as [|t r IH]; intros Hin.
  - cbn. induction days as [|d l IHl]; [reflexivity|].
    apply NoDup_cons_iff in Hnd as [_ Hnd]. cbn [map sum_Z fold_right].
    fold (sum_Z (map (fun _ : Z => 0) l)). now rewrite (IHl Hnd).
  - rewrite (map_ext _ (fun d => (if tx_date t =? d
                                  then (if is_type ty t then tx_amount t else 0)
                                  else 0)
                                 + sum_amount
                                     (filter (fun u => on_date d u
                                                       && is_type ty u) r))).
    + rewrite sum_Z_add, (sum_Z_pick _ _ _ Hnd), IH
        by (intros u Hu; apply Hin; now right).
      destruct (in_dec Z.eq_dec (tx_date t) days) as [_|Hn];
        [|exfalso; apply Hn, Hin; now left].
      cbn [filter].
      destruct (is_type ty t); rewrite ?sum_amount_cons; lia.
    + intros d. cbn [filter]. unfold on_date at 1.
      destruct (tx_date t =? d), (is_type ty t); cbn [andb];
        rewrite ?sum_amount_cons; lia.
Qed.

Lemma last_cons {A} (a : A) l d : last (a :: l) d = last l a.
Proof.
  revert a d. induction l as [|b l IH]; intros a d; [reflexivity|].
  change (last (a :: b :: l) d) with (last (b :: l) d).
  now rewrite (IH b d), (IH b a).
Qed.

Lemma daily_loop_final (df : DataFrame Z) days cb p0 :
  balance p0 = cb ->
  balance (last (daily_loop df days cb) p0)
  = cb + sum_Z (map (fun d => booked "income" d df) days)
    - sum_Z (map (fun d => booked "expense" d df) days).
Proof.
  revert cb p0. induction days as [|d rest IH]; intros cb p0 Hp0.
  - cbn. lia.
  - cbn [daily_loop]. rewrite last_cons, IH by reflexivity.
    cbn [map sum_Z fold_right]. unfold booked at 3 5.
    rewrite !filter_filter.
    fold (sum_Z (map (fun d => booked "income" d df) rest)).
    fold (sum_Z (map (fun d => booked "expense" d df) rest)).
    exact_arith. lia.
Qed.

Lemma final_balance_totals today (df : DataFrame Z) starting_balance :
  final_balance (calculate_cash_flow_projection today df starting_balance)
  = starting_balance + total "income" df - total "expense" df.
Proof.
  unfold final_balance, calculate_cash_flow_projection.
  destruct df as [|t r] eqn:Hdf; [cbn; lia|]. rewrite <- Hdf.
  destruct (date_min df) as [mn|] eqn:Hmin; [|subst df; discriminate].
  destruct (date_max df) as [mx|] eqn:Hmax; [|subst df; discriminate].
  rewrite last_cons, daily_loop_final by reflexivity.
  pose proof (date_min_earliest df mn Hmin) as [_ Hlo].
  pose proof (date_max_latest df mx Hmax) as [_ Hhi].
  assert (Hcover : forall u, In u df -> In (tx_date u) (date_range mn mx))
    by (intros u Hu; apply date_range_In; split;
        [now apply Hlo | now apply Hhi]).
  now rewrite !(booked_over_days _ df _ (date_range_NoDup mn mx) Hcover).
Qed.

(** X10: in exact arithmetic, whatever the dates, the projection ends on the
    starting balance plus all income amounts minus all expense amounts of the
    frame (an empty frame ends on the starting balance). *)
Theorem projection_final_balance today (df : DataFrame Z) starting_balance :
  final_balance (calculate_cash_flow_projection today df starting_balance)
  = starting_balance + total "income" df - total "expense" df
  /\ (df = [] ->
      final_balance (calculate_cash_flow_projection today df starting_balance)
      = starting_balance).
Proof.
  split; [apply final_balance_totals|].
  intros ->. reflexivity.
Qed.

Lemma total_perm ty (df df' : DataFrame Z) :
  Permutation df df' -> total ty df = total ty df'.
Proof. apply sum_filter_perm. Qed.

Lemma total_delayed ty n (df : DataFrame Z) :
  total ty (map (delay_row n) df) = total ty df.
Proof.
  unfold total. induction df as [|t r IH]; [reflexivity|].
  cbn [map filter].
  assert (Hty : is_type ty (delay_row n t) = is_type ty t)
    by (unfold delay_row; now destruct (pending_income t)).
  assert (Ham : tx_amount (delay_row n t) = tx_amount t)
    by (unfold delay_row; now destruct (pending_income t)).
  rewrite Hty. destruct (is_type ty t); rewrite ?sum_amount_cons, ?Ham; lia.
Qed.

Lemma total_app ty (df df' : DataFrame Z) :
  total ty (df ++ df') = total ty df + total ty df'.
Proof.
  unfold total. rewrite filter_app.
  induction (filter (is_type ty) df) as [|t r IH]; [reflexivity|].
  cbn [app]. rewrite !sum_amount_cons. lia.
Qed.

(** X11: in exact arithmetic, on a non-empty store, a scenario moves the
    balance the projection ends on by the what-if amount and nothing else:
    payment delays shift income in time but do not change where the balance
    ends. *)
Theorem scenario_final_balance `{SortValues Z} today (df : DataFrame Z)
    scenario_type delay_days what_if_expense starting_balance :
  df <> [] -> 0 <= what_if_expense ->
  final_balance
    (calculate_cash_flow_projection today
       (apply_scenarios today df scenario_type delay_days what_if_expense)
       starting_balance)
  = final_balance (calculate_cash_flow_projection today df starting_balance)
    - what_if_expense.
Proof.
  intros Hne Hw. rewrite !final_balance_totals.
  pose proof (apply_scenarios_perm today df scenario_type delay_days
                what_if_expense Hne) as Hp.
  rewrite <- (total_perm "income" _ _ Hp), <- (total_perm "expense" _ _ Hp).
  assert (Hrows : forall ty,
             total ty (scenario_rows df scenario_type delay_days)
             = total ty df).
  { intros ty. unfold scenario_rows. destruct (String.eqb _ _);
      [apply total_delayed | reflexivity]. }
  unfold what_if_rows. exact_arith.
  destruct (Z.ltb_spec 0 what_if_expense).
  - rewrite !total_app, !Hrows. cbn. lia.
  - rewrite !Hrows. lia.
Qed.

(** ** Trend and the empty store *)

Lemma daily_loop_running (df : DataFrame Z) days cb :
  running cb (daily_loop df days cb).
Proof.
  revert cb. induction days as [|d rest IH]; intros cb; [exact I|].
  cbn [daily_loop running balance net_flow]. split; [reflexivity | apply IH].
Qed.

Lemma projection_running today (df : DataFrame Z) starting_balance :
  running starting_balance
    (calculate_cash_flow_projection today df starting_balance).
Proof.
  unfold calculate_cash_flow_projection.
  destruct df as [|t r]; [cbn; split; [lia | exact I]|].
  destruct (date_min (t :: r)), (date_max (t :: r));
    cbn [running today_point balance net_flow]; exact_arith;
    (split; [lia | try exact I]).
  apply daily_loop_running.
Qed.

Lemma running_skipn n b0 l : running b0 l -> exists b, running b (skipn n l).
Proof.
  revert b0 l. induction n as [|n IH]; intros b0 l Hr; [now exists b0|].
  destruct l as [|p r]; [now exists b0|].
  cbn [skipn]. destruct Hr as [_ Hr]. now apply (IH (balance p)).
Qed.

Lemma running_last b0 q rest d :
  running b0 (q :: rest) ->
  balance (last (q :: rest) d) = balance q + sum_Z (map net_flow rest).
Proof.
  revert b0 q. induction rest as [|p r IH]; intros b0 q [_ Hr]; [cbn; lia|].
  change (last (q :: p :: r) d) with (last (p :: r) d).
  rewrite (IH _ _ Hr). destruct Hr as [Hp _].
  cbn [map sum_Z fold_right]. fold (sum_Z (map net_flow r)). lia.
Qed.

Lemma last_map_balance (l : list (Point Z)) p d :
  last (map balance (p :: l)) d = balance (last (p :: l) (today_point 0 0)).
Proof.
  revert p. induction l as [|q r IH]; intros p; [reflexivity|].
  change (last (map balance (p :: q :: r)) d)
    with (last (map balance (q :: r)) d).
  now rewrite IH.
Qed.

Lemma trend_of_running b0 leading daily :
  running b0 (leading :: daily) ->
  trend_of (leading :: daily) = sum_Z (map net_flow (tail 4 daily)).
Proof.
  intros Hr. unfold trend_of, tail. exact_arith.
  destruct daily as [|p1 r1]; [reflexivity|].
  replace (1 <? List.length (leading :: p1 :: r1))%nat with true
    by (symmetry; apply Nat.ltb_lt; cbn; lia).
  rewrite length_map, skipn_map.
  set (n := (List.length (leading :: p1 :: r1) - 5)%nat).
  assert (Hlen : (2 <= List.length (skipn n (leading :: p1 :: r1)))%nat)
    by (rewrite length_skipn; subst n; cbn [List.length]; lia).
  destruct (running_skipn n _ _ Hr) as [b Hb].
  assert (Hrest : tl (skipn n (leading :: p1 :: r1))
                  = skipn (List.length (p1 :: r1) - 4) (p1 :: r1)).
  { subst n. cbn [List.length].
    destruct (Nat.le_gt_cases (List.length r1) 3) as [Hle|Hgt].
    - replace (S (S (List.length r1)) - 5)%nat with 0%nat by lia.
      replace (S (List.length r1) - 4)%nat with 0%nat by lia. reflexivity.
    - replace (S (S (List.length r1)) - 5)%nat
        with (S (List.length r1 - 4))%nat by lia.
      replace (S (List.length r1) - 4)%nat
        with (1 + (List.length r1 - 4))%nat by lia.
      rewrite <- skipn_skipn. cbn [skipn].
      destruct (skipn (List.length r1 - 4) (p1 :: r1)); reflexivity. }
  destruct (skipn n (leading :: p1 :: r1)) as [|q rest] eqn:E;
    [cbn in Hlen; lia|].
  cbn [tl] in Hrest. rewrite <- Hrest.
  replace (1 <? List.length (map balance (q :: rest)))%nat with true
    by (symmetry; apply Nat.ltb_lt; rewrite length_map; lia).
  rewrite last_map_balance, (running_last _ _ _ _ Hb). cbn [map hd]. lia.
Qed.

(** X12: in exact arithmetic the trend of a projection is the sum of the net
    flows of its last four daily rows (of all of them when there are fewer,
    0 when there is none); the Trend card reads Improving exactly when that
    sum is positive, Declining otherwise, also when nothing moves. *)
Theorem trend_is_last_four_days today (df : DataFrame Z) starting_balance
    current_balance :
  let projection_df :=
    calculate_cash_flow_projection today df starting_balance in
  let m := calculate_health_metrics today projection_df current_balance in
  exists leading daily,
    projection_df = leading :: daily
    /\ trend_direction m = sum_Z (map net_flow (tail 4 daily))
    /\ (trend_text m = "Improving"
        <-> 0 < sum_Z (map net_flow (tail 4 daily))).
Proof.
  intros projection_df m.
  pose proof (projection_running today df starting_balance) as Hr.
  fold projection_df in Hr.
  assert (Hne : exists leading daily, projection_df = leading :: daily).
  { subst projection_df. unfold calculate_cash_flow_projection.
    destruct df as [|t r]; [eauto|].
    destruct (date_min (t :: r)), (date_max (t :: r)); eauto. }
  destruct Hne as (leading & daily & Heq).
  exists leading, daily. split; [exact Heq|].
  assert (Ht : trend_direction m = sum_Z (map net_flow (tail 4 daily))).
  { subst m. cbn [calculate_health_metrics trend_direction].
    unfold calculate_health_metrics. cbn [trend_direction].
    rewrite Heq in *. now apply (trend_of_running starting_balance). }
  split; [exact Ht|].
  unfold trend_text. rewrite Ht. exact_arith.
  destruct (Z.ltb_spec 0 (sum_Z (map net_flow (tail 4 daily)))); split;
    intros; try reflexivity; try easy; lia.
Qed.

(** X13: on an empty store the scenario has no effect, whatever the what-if
    amount: the projection is the single row for today; the score is 100
    with no danger date when the balance is not below zero, and 0 with the
    danger date today when it is; the trend is 0 and reads Declining. *)
Theorem empty_store_dashboard `{SortValues Z} today scenario_type delay_days
    what_if_expense current_balance :
  let df_scenario :=
    apply_scenarios today [] scenario_type delay_days what_if_expense in
  let projection_df :=
    calculate_cash_flow_projection today df_scenario current_balance in
  let m := calculate_health_metrics today projection_df current_balance in
  projection_df = [today_point today current_balance]
  /\ min_balance m = Some current_balance
  /\ trend_direction m = 0 /\ trend_text m = "Declining"
  /\ (0 <= current_balance ->
      days_until_danger m = None /\ health_score m = 100)
  /\ (current_balance < 0 ->
      days_until_danger m = Some 0 /\ health_score m = 0).
Proof.
  cbn. unfold danger_days, negative_days. cbn [filter today_point balance].
  exact_arith.
  repeat split; intros;
    destruct (Z.ltb_spec current_balance 0); try lia; cbn;
    rewrite ?Z.sub_diag; reflexivity.
Qed.
(** * Persistence: what loading accepts *)

Module load_facts.
Import calendar.

Lemma days_before_year_bounds y :
  1 <= y <= 9998 -> 0 <= days_before_year y <= 3651329.
Proof.
  intros Hy. unfold days_before_year. cbv zeta.
  Z.div_mod_to_equations. lia.
Qed.

Lemma days_before_year_9999 : days_before_year 9999 = 3651694.
Proof. reflexivity. Qed.

Lemma is_leap_9999 : is_leap 9999 = false.
Proof. reflexivity. Qed.

(** The entries of the month tables and the tests on a given month. *)
Ltac month_tables :=
  repeat match goal with
         | |- context [DAYS_IN_MONTH ?m] =>
             let v := eval vm_compute in (DAYS_IN_MONTH m) in
             change (DAYS_IN_MONTH m) with v
         | |- context [DAYS_BEFORE_MONTH ?m] =>
             let v := eval vm_compute in (DAYS_BEFORE_MONTH m) in
             change (DAYS_BEFORE_MONTH m) with v
         | |- context [?a =? ?b] =>
             let v := eval vm_compute in (a =? b) in
             change (a =? b) with v
         | |- context [?a <? ?b] =>
             let v := eval vm_compute in (a <? b) in
             change (a <? b) with v
         end;
  cbn [andb].

Lemma day_of_year_bounds y m d :
  1 <= m <= 12 -> 1 <= d <= days_in_month y m ->
  1 <= days_before_month y m + d
       <= 365 + (if is_leap y then 1 else 0).
Proof.
  intros Hm. unfold days_before_month, days_in_month.
  assert (Hc : m = 1 \/ m = 2 \/ m = 3 \/ m = 4 \/ m = 5 \/ m = 6 \/ m = 7
               \/ m = 8 \/ m = 9 \/ m = 10 \/ m = 11 \/ m = 12) by lia.
  destruct (is_leap y);
    repeat (destruct Hc as [->|Hc]; [month_tables; lia|]); subst;
    month_tables; lia.
Qed.

Lemma ymd2ord_valid y m d :
  1 <= y <= 9999 -> 1 <= m <= 12 -> 1 <= d <= days_in_month y m ->
  valid_date (ymd2ord y m d).
Proof.
  intros Hy Hm Hd. unfold valid_date, MAXORDINAL, ymd2ord.
  pose proof (day_of_year_bounds y m d Hm Hd) as Hdoy.
  destruct (Z.eq_dec y 9999) as [->|Hne].
  - rewrite is_leap_9999 in Hdoy. rewrite days_before_year_9999. lia.
  - pose proof (days_before_year_bounds y ltac:(lia)).
    destruct (is_leap y); lia.
Qed.

Lemma digit_val_range c x : digit_val c = Some x -> 0 <= x <= 9.
Proof.
  unfold digit_val.
  destruct ((48 <=? Z.of_nat (nat_of_ascii c))
            && (Z.of_nat (nat_of_ascii c) <=? 57)) eqn:E; [|discriminate].
  intros [= <-]. apply andb_true_iff in E as [E1 E2]. lia.
Qed.

Lemma re_m_range s m : re_m s = Some m -> 1 <= m <= 12.
Proof.
  unfold re_m. destruct s as [|a [|b [|c r]]]; try discriminate.
  - destruct (digit_val a) as [x|] eqn:Ea; [|discriminate].
    apply digit_val_range in Ea.
    destruct (Z.leb_spec 1 x); [|discriminate]. intros [= <-]. lia.
  - destruct (digit_val a) as [x|] eqn:Ea; [|discriminate].
    destruct (digit_val b) as [y|] eqn:Eb; [|discriminate].
    apply digit_val_range in Ea, Eb.
    destruct (Z.eqb_spec x 1), (Z.leb_spec y 2), (Z.eqb_spec x 0),
      (Z.leb_spec 1 y); cbn [andb orb]; try discriminate;
      intros Heq; assert (10 * x + y = m) by congruence; lia.
Qed.

Lemma re_d_range s d : re_d s = Some d -> 1 <= d.
Proof.
  unfold re_d. destruct s as [|a [|b [|c r]]]; try discriminate.
  - destruct (digit_val a) as [x|] eqn:Ea; [|discriminate].
    destruct (Z.leb_spec 1 x); [|discriminate]. intros [= <-]. lia.
  - destruct (digit_val a) as [x|] eqn:Ea,
             (digit_val b) as [y|] eqn:Eb; try discriminate.
    + apply digit_val_range in Ea, Eb.
      destruct (Z.eqb_spec x 3), (Z.leb_spec y 1), (Z.leb_spec 1 x),
        (Z.leb_spec x 2), (Z.eqb_spec x 0), (Z.leb_spec 1 y);
        cbn [andb orb]; try discriminate;
        intros Heq; assert (10 * x + y = d) by congruence; lia.
    + destruct (Ascii.eqb a " "), (Z.leb_spec 1 y); cbn [andb];
        try discriminate. intros [= <-]. lia.
Qed.

(** What [strptime] returns is a date. *)
Lemma strptime_valid s d : strptime s = Some d -> valid_date d.
Proof.
  unfold strptime.
  destruct (list_ascii_of_string s) as [|y1 [|y2 [|y3 [|y4 [|dash rest]]]]];
    try discriminate.
  destruct (digit_val y1) as [a|] eqn:E1; [|discriminate].
  destruct (digit_val y2) as [b|] eqn:E2; [|discriminate].
  destruct (digit_val y3) as [c|] eqn:E3; [|discriminate].
  destruct (digit_val y4) as [e|] eqn:E4; [|discriminate].
  destruct (split_dash rest) as [[ms ds]|]; [|discriminate].
  destruct (re_m ms) as [month|] eqn:Em; [|discriminate].
  destruct (re_d ds) as [day|] eqn:Ed; [|discriminate].
  apply digit_val_range in E1, E2, E3, E4.
  apply re_m_range in Em. apply re_d_range in Ed.
  cbv zeta. set (year := 1000 * a + 100 * b + 10 * c + e).
  assert (Hy : year <= 9999) by (subst year; lia). clearbody year.
  destruct (Ascii.eqb dash "-"); [|discriminate]. cbn [andb].
  destruct (Z.leb_spec 1 year); [|discriminate].
  destruct (Z.leb_spec day (days_in_month year month)); [|discriminate].
  cbn [andb]. intros Heq.
  assert (Hd : ymd2ord year month day = d) by congruence.
  rewrite <- Hd. apply ymd2ord_valid; lia.
Qed.

End load_facts.

Section Loading.

Context {num : Type} {arith : Arith num}.
Implicit Types (l : list (Json.row num)) (df : DataFrame num).

Lemma of_records_valid l df :
  of_records l = Some df ->
  Forall (fun t => calendar.valid_date (tx_date t)) df.
Proof.
  revert df. induction l as [|r rest IH]; intros df; cbn [of_records].
  - intros [= <-]. constructor.
  - unfold of_record.
    destruct (calendar.strptime (Json.date r)) as [d|] eqn:Ed; [|discriminate].
    destruct (of_records rest) as [ts|]; [|discriminate].
    intros [= <-]. constructor; [|now apply IH].
    cbn. now apply (load_facts.strptime_valid (Json.date r)).
Qed.

Lemma of_records_fields l df :
  of_records l = Some df ->
  Forall2 (fun r t =>
             tx_id t = Json.id r /\ tx_type t = Json.type r
             /\ tx_amount t = Json.amount r
             /\ calendar.strptime (Json.date r) = Some (tx_date t)
             /\ tx_description t = Json.description r
             /\ tx_status t = Json.status r
             /\ tx_probability t = Json.probability r) l df.
Proof.
  revert df. induction l as [|r rest IH]; intros df; cbn [of_records].
  - intros [= <-]. constructor.
  - unfold of_record.
    destruct (calendar.strptime (Json.date r)) as [d|] eqn:Ed; [|discriminate].
    destruct (of_records rest) as [ts|]; [|discriminate].
    intros [= <-]. constructor; [cbn; tauto | now apply IH].
Qed.

Lemma of_records_bad_date l r :
  In r l -> calendar.strptime (Json.date r) = None -> of_records l = None.
Proof.
  induction l as [|r0 rest IH]; [intros []|].
  intros [->|Hin] Hbad; cbn [of_records]; unfold of_record.
  - now rewrite Hbad.
  - rewrite (IH Hin Hbad). now destruct (calendar.strptime (Json.date r0)).
Qed.

Lemma of_records_all_good l :
  (forall r, In r l -> calendar.strptime (Json.date r) <> None) ->
  exists df, of_records l = Some df.
Proof.
  induction l as [|r rest IH]; intros Hgood; [now exists []|].
  destruct IH as [ts Hts]; [intros r0 Hr0; apply Hgood; now right|].
  cbn [of_records]. unfold of_record.
  destruct (calendar.strptime (Json.date r)) as [d|] eqn:Ed.
  - rewrite Hts. eauto.
  - exfalso. apply (Hgood r); [now left | exact Ed].
Qed.

Lemma of_records_app (a b : list (Json.row num)) :
  of_records (a ++ b)
  = match of_records a, of_records b with
    | Some x, Some y => Some (x ++ y)
    | _, _ => None
    end.
Proof.
  induction a as [|r rest IH]; cbn [app of_records].
  - now destruct (of_records b).
  - destruct (of_record r); [|reflexivity]. rewrite IH.
    destruct (of_records rest), (of_records b); reflexivity.
Qed.

Lemma load_data_valid (f : file num) : valid_store (load_data f).
Proof.
  unfold valid_store, load_data.
  destruct f as [| |d]; try constructor.
  destruct (of_records (Json.transactions d)) as [df|] eqn:E; [|constructor].
  cbn. now apply (of_records_valid (Json.transactions d)).
Qed.

(** X14: loading is all or nothing.  Without a file, with a file that is not
    JSON, or with one row whose date [strptime] rejects, the result is the
    empty default store (no rows, balance 0, next id 1); otherwise it has one
    row per stored row, in order and with the stored fields, the date parsed,
    and the stored balance and next id.  In every case the dates of the
    result are dates. *)
Theorem load_data_all_or_nothing (f : file num) :
  valid_store (load_data f)
  /\ (f = NoFile \/ f = NotJson -> load_data f = default_store)
  /\ (forall d r, f = Data d -> In r (Json.transactions d) ->
        calendar.strptime (Json.date r) = None ->
        load_data f = default_store)
  /\ (forall d, f = Data d ->
        (forall r, In r (Json.transactions d) ->
                   calendar.strptime (Json.date r) <> None) ->
        session_state.current_balance (load_data f) = Json.current_balance d
        /\ session_state.next_id (load_data f) = Json.next_id d
        /\ Forall2 (fun r t =>
                      tx_id t = Json.id r /\ tx_type t = Json.type r
                      /\ tx_amount t = Json.amount r
                      /\ calendar.strptime (Json.date r) = Some (tx_date t)
                      /\ tx_description t = Json.description r
                      /\ tx_status t = Json.status r
                      /\ tx_probability t = Json.probability r)
             (Json.transactions d)
             (session_state.transactions_df (load_data f))).
Proof.
  split; [apply load_data_valid|]. split; [intros [->| ->]; reflexivity|].
  split.
  - intros d r -> Hin Hbad. unfold load_data.
    now rewrite (of_records_bad_date _ r Hin Hbad).
  - intros d -> Hgood. destruct (of_records_all_good _ Hgood) as [df Hdf].
    unfold load_data. rewrite Hdf. cbn.
    repeat split. now apply of_records_fields.
Qed.

(** X15: what was loaded can be saved and loaded again without change:
    loading the file that holds a loaded store gives that store. *)
Theorem reload_is_stable (f : file num) :
  load_data (Data (dump (load_data f))) = load_data f.
Proof.
  pose proof (load_data_valid f) as Hv.
  unfold load_data at 1. unfold dump. cbn [Json.transactions].
  rewrite (of_records_to_records _ Hv). cbn. now destruct (load_data f).
Qed.

(** * Ingestion, then loading *)

Context {conversion : FloatConversion num}.

Lemma data_ok_add (d : Json.data num) r :
  Json.id r = Json.next_id d -> data_ok d ->
  data_ok {| Json.transactions := Json.transactions d ++ [r];
             Json.current_balance := Json.current_balance d;
             Json.next_id := Json.next_id d + 1 |}.
Proof.
  intros Hr [Hnd Hlt]. split; cbn.
  - rewrite map_app. cbn [map]. rewrite Hr.
    apply NoDup_app; [exact Hnd | repeat constructor; intros [] |].
    intros a Ha [<-|[]]. apply in_map_iff in Ha as (t & Ht & Hin).
    specialize (Hlt t Hin). lia.
  - intros t Hin. apply in_app_or in Hin as [Hin|[<-|[]]].
    + specialize (Hlt t Hin). lia.
    + lia.
Qed.

Lemma data_ok_balance (d : Json.data num) balance :
  data_ok d ->
  data_ok {| Json.transactions := Json.transactions d;
             Json.current_balance := balance;
             Json.next_id := Json.next_id d |}.
Proof. intros [Hnd Hlt]. split; assumption. Qed.

Lemma convert_loop_ok transaction_list existing next_id balance rows next :
  convert_loop transaction_list existing next_id = Some (rows, next) ->
  data_ok {| Json.transactions := existing; Json.current_balance := balance;
             Json.next_id := next_id |} ->
  data_ok {| Json.transactions := rows; Json.current_balance := balance;
             Json.next_id := next |}.
Proof.
  revert existing next_id. induction transaction_list as [|e rest IH];
    intros existing next_id; cbn [convert_loop].
  - now intros [= <- <-].
  - destruct (flowstate_transaction next_id e) as [row|] eqn:Erow;
      [|discriminate].
    intros Hloop Hok. apply (IH _ _ Hloop).
    apply (data_ok_add
             {| Json.transactions := existing;
                Json.current_balance := balance;
                Json.next_id := next_id |} row); [|exact Hok].
    unfold flowstate_transaction in Erow.
    destruct (float_of (e_amount e)); [|discriminate].
    now injection Erow as <-.
Qed.

(** X16: a merge that succeeds keeps the ids of the file pairwise distinct
    and below [next_id] (the file it starts when there is none has that
    property); a merge that fails leaves the file as it was. *)
Theorem ingestion_keeps_ids (transactions : Batch num) (f : file num) :
  (match f with Data d => data_ok d | NoFile | NotJson => True end) ->
  (fst (save_to_cashflow_data transactions f) = true ->
   exists d', snd (save_to_cashflow_data transactions f) = Data d'
              /\ data_ok d')
  /\ (fst (save_to_cashflow_data transactions f) = false ->
      snd (save_to_cashflow_data transactions f) = f).
Proof.
  intros Hok. unfold save_to_cashflow_data.
  set (existing := match f with Data d => d | _ => default_data end).
  assert (Hex : data_ok existing).
  { subst existing. destruct f; try exact Hok;
      (split; [constructor | intros r []]). }
  set (l := match b_transactions transactions with
            | Some l => l | None => [] end).
  destruct (convert_loop l (Json.transactions existing)
              (Json.next_id existing)) as [[rows next]|] eqn:Eloop;
    [|split; [discriminate | reflexivity]].
  destruct (match b_current_balance transactions with
            | Some b => float_of b
            | None => Some (Json.current_balance existing)
            end) as [balance|];
    [|split; [discriminate | reflexivity]].
  cbn [fst snd]. split; [|discriminate].
  intros _. eexists. split; [reflexivity|].
  apply (convert_loop_ok _ _ _ balance _ _ Eloop).
  now apply (data_ok_balance existing).
Qed.

(** X17: the merge does not look at the dates it stores.  When [float()]
    accepts the batch and one incoming date is not a date [strptime]
    accepts, the merge still reports success, and loading the file it wrote
    gives the empty default store. *)
Theorem ingestion_bad_date_hides_store (transactions : Batch num)
    (f : file num) (l : list (Extracted num)) e :
  b_transactions transactions = Some l -> In e l ->
  calendar.strptime (e_date e) = None ->
  accepted transactions = true ->
  fst (save_to_cashflow_data transactions f) = true
  /\ load_data (snd (save_to_cashflow_data transactions f)) = default_store.
Proof.
  intros Hl Hin Hbad Hacc.
  destruct (merge_accepted transactions f Hacc)
    as (rows & balance & Heq & Hlen & Hnth & _).
  rewrite Heq. cbn [fst snd]. split; [reflexivity|].
  destruct (In_nth_error _ _ Hin) as [i Hi].
  destruct (Hnth i e) as (x & _ & Hrow); [now rewrite Hl|].
  pose proof (nth_error_In _ _ Hrow) as Hin'.
  unfold load_data. cbn [Json.transactions].
  rewrite (of_records_bad_date _ _ (in_or_app _ _ _ (or_intror Hin')));
    [reflexivity | exact Hbad].
Qed.

(** X18: when [float()] accepts the batch, the file loads and every incoming
    date is a date, loading after the merge gives the rows loaded before
    followed by the new rows, with the ids, amounts, status and probability
    of the merge and the incoming dates parsed. *)
Theorem ingestion_then_load (transactions : Batch num) (f : file num) df0 :
  let existing_data :=
    match f with Data d => d | NoFile | NotJson => default_data end in
  let transaction_list :=
    match b_transactions transactions with Some l => l | None => [] end in
  let loaded := load_data (snd (save_to_cashflow_data transactions f)) in
  accepted transactions = true ->
  of_records (Json.transactions existing_data) = Some df0 ->
  (forall e, In e transaction_list ->
             calendar.strptime (e_date e) <> None) ->
  exists new,
    session_state.transactions_df loaded = df0 ++ new
    /\ session_state.next_id loaded
       = Json.next_id existing_data + Z.of_nat (List.length transaction_list)
    /\ match b_current_balance transactions with
       | Some b => float_of b = Some (session_state.current_balance loaded)
       | None => session_state.current_balance loaded
                 = Json.current_balance existing_data
       end
    /\ Forall2 (fun e t =>
                  tx_type t = e_type e
                  /\ (exists x, float_of (e_amount e) = Some x
                                /\ tx_amount t = abs_of x)
                  /\ calendar.strptime (e_date e) = Some (tx_date t)
                  /\ tx_description t = e_description e
                  /\ tx_status t = "confirmed" /\ tx_probability t = 100)
         transaction_list new
    /\ forall i t, nth_error new i = Some t ->
         tx_id t = Json.next_id existing_data + Z.of_nat i.
Proof.
  intros existing_data transaction_list loaded Hacc Hload Hgood.
  subst loaded.
  destruct (merge_accepted transactions f Hacc)
    as (rows & balance & Heq & Hlen & Hnth & Hbal).
  fold existing_data in Heq, Hnth, Hbal. fold transaction_list in Heq, Hlen, Hnth.
  rewrite Heq. cbn [snd]. unfold load_data. cbn [Json.transactions].
  rewrite of_records_app, Hload.
  assert (Hrows : exists new,
             of_records rows = Some new
             /\ Forall2 (fun e t =>
                  tx_type t = e_type e
                  /\ (exists x, float_of (e_amount e) = Some x
                                /\ tx_amount t = abs_of x)
                  /\ calendar.strptime (e_date e) = Some (tx_date t)
                  /\ tx_description t = e_description e
                  /\ tx_status t = "confirmed" /\ tx_probability t = 100)
                  transaction_list new
             /\ forall i t, nth_error new i = Some t ->
                  tx_id t = Json.next_id existing_data + Z.of_nat i).
  { clear Heq Hload Hbal Hacc. generalize dependent (Json.next_id existing_data).
    generalize dependent rows.
    induction transaction_list as [|e rest IH]; intros rows Hlen n Hnth.
    - destruct rows; [|discriminate]. exists []. repeat split;
        [constructor | intros [|i] t; discriminate].
    - destruct rows as [|r rows]; [discriminate|].
      destruct (Hnth 0%nat e eq_refl) as (x0 & Hx0 & H0).
      cbn in H0. injection H0 as ->.
      destruct (calendar.strptime (e_date e)) as [d|] eqn:Ed;
        [|exfalso; apply (Hgood e); [now left | exact Ed]].
      destruct (IH (fun e0 He0 => Hgood e0 (or_intror He0)) rows
                  ltac:(cbn in Hlen; lia) (n + 1)) as (new & Hnew & Hf & Hid).
      { intros i e0 Hi. destruct (Hnth (S i) e0 Hi) as (x & Hx & HS).
        cbn [nth_error] in HS. exists x. split; [exact Hx|].
        rewrite HS. do 2 f_equal. lia. }
      cbn [of_records]. unfold of_record at 1.
      cbn [Json.date]. rewrite Ed, Hnew.
      eexists. split; [reflexivity|]. split.
      + constructor; [|exact Hf]. cbn.
        split; [reflexivity|]. split; [now exists x0|].
        repeat split; try reflexivity; exact Ed.
      + intros [|i] t; cbn [nth_error].
        * intros [= <-]. cbn. lia.
        * intros Hi. rewrite (Hid i t Hi). lia. }
  destruct Hrows as (new & Hnew & Hf & Hid).
  rewrite Hnew. exists new. cbn.
  split; [reflexivity|]. split; [reflexivity|]. split; [|split; assumption].
  destruct (b_current_balance transactions); exact Hbal.
Qed.

(** * Import of a backup *)

(** X19: an import changes nothing and reports an error when the upload is
    not JSON or holds a row whose date [strptime] rejects; importing the
    backup of a store (its export) returns, makes that store the session and
    writes it to the file; the session frame then has its columns when the
    backup has a row. *)
Theorem import_data_all_or_nothing (uploaded_file : file num) (w : World num) :
  (uploaded_file = NotJson
   \/ (exists d r, uploaded_file = Data d /\ In r (Json.transactions d)
                   /\ calendar.strptime (Json.date r) = None) ->
   import_data uploaded_file w = (Returned false, w))
  /\ (forall s, valid_store s -> uploaded_file = Data (dump s) ->
        import_data uploaded_file w
        = (Returned true,
           {| session := s;
              has_columns := columns_of (session_state.transactions_df s);
              cashflow_data_json := Data (dump s) |})).
Proof.
  split.
  - intros [->|(d & r & -> & Hin & Hbad)]; [reflexivity|].
    unfold import_data. now rewrite (of_records_bad_date _ r Hin Hbad).
  - intros s Hv ->. unfold import_data, dump at 1. cbn [Json.transactions].
    rewrite (of_records_to_records _ Hv).
    unfold bind, put_session, put_columns, save_data, bind, get_session,
      write_file, ret.
    cbn. now destruct s.
Qed.

(** * Payment risk alerts under a scenario *)

Lemma overdue_payments_In today (df_scenario : DataFrame num) t :
  In t (overdue_payments today df_scenario)
  <-> In t df_scenario
      /\ tx_type t = "income" /\ tx_status t = "pending"
      /\ tx_date t < today.
Proof.
  unfold overdue_payments. destruct df_scenario as [|u r]; [cbn; tauto|].
  rewrite filter_In, !andb_true_iff, !String.eqb_eq, Z.ltb_lt. tauto.
Qed.

(** X20: the alerts are computed after the scenario.  Under Payment Delays
    the rows listed as overdue are exactly the pending incomes of the store
    whose date, moved by the delay, is still before today, each shown with
    its moved date and overdue by the days from that date to today; the
    what-if expense is never listed. *)
Theorem overdue_after_delay `{SortValues num} today (df : DataFrame num)
    delay_days what_if_expense payment :
  In payment
    (overdue_payments today
       (apply_scenarios today df "Payment Delays" delay_days what_if_expense))
  <-> exists t,
        In t df /\ tx_type t = "income" /\ tx_status t = "pending"
        /\ tx_date t + delay_days < today
        /\ payment = set_date t (tx_date t + delay_days)
        /\ days_overdue today payment = today - (tx_date t + delay_days).
Proof.
  rewrite overdue_payments_In.
  destruct df as [|t0 r0] eqn:Hdf.
  { cbn. split; [tauto | intros (t & [] & _)]. }
  rewrite <- Hdf. assert (Hne : df <> []) by congruence. clear t0 r0 Hdf.
  pose proof (apply_scenarios_perm today df "Payment Delays" delay_days
                what_if_expense Hne) as Hp.
  unfold scenario_rows in Hp.
  replace (String.eqb "Payment Delays" "Payment Delays") with true in Hp
    by reflexivity.
  split.
  - intros (Hin & Hty & Hst & Hlt).
    apply (Permutation_in _ (Permutation_sym Hp)) in Hin.
    assert (Hrow : In payment (map (delay_row delay_days) df)).
    { unfold what_if_rows in Hin. destruct (less zero what_if_expense);
        [|exact Hin].
      apply in_app_or in Hin as [Hin|[<-|[]]]; [exact Hin|].
      discriminate Hty. }
    apply in_map_iff in Hrow as (t & Ht & Hint). exists t.
    unfold delay_row in Ht. destruct (pending_income t) eqn:Hpi.
    + apply pending_income_iff in Hpi as [Hi Hpd]. subst payment.
      cbn in Hlt. repeat split; assumption.
    + exfalso. subst payment.
      assert (pending_income t = true)
        by (apply pending_income_iff; now split).
      congruence.
  - intros (t & Hint & Hty & Hst & Hlt & -> & _).
    split; [|cbn; repeat split; assumption].
    apply (Permutation_in _ Hp). unfold what_if_rows.
    assert (Hrow : In (set_date t (tx_date t + delay_days))
                      (map (delay_row delay_days) df)).
    { apply in_map_iff. exists t. split; [|exact Hint].
      unfold delay_row.
      replace (pending_income t) with true; [reflexivity|].
      symmetry. apply pending_income_iff. now split. }
    destruct (less zero what_if_expense);
      [apply in_or_app; now left | exact Hrow].
Qed.

End Loading.

(** * The further statements on the sample data *)

Lemma sample_store_ok : store_ok sample.store.
Proof.
  split; cbn.
  - constructor; [intros [] | constructor].
  - intros t [<-|[]]. cbn. lia.
Qed.

Lemma add_transaction_appends_sample :
  store_ok
    (session
       (snd (add_transaction "income" 50 sample.today "Gift" "confirmed" 100
               sample.world))).
Proof.
  destruct (add_transaction_appends sample.world "income" 50 sample.today
              "Gift" "confirmed" 100) as [Heq Hok].
  rewrite Heq. apply Hok. exact sample_store_ok.
Defined.

Lemma update_transaction_known_sample :
  fst (update_transaction 1 "expense" 2100 sample.today "Rent" "confirmed"
         100 sample.world)
  = Returned tt.
Proof.
  destruct (update_transaction_known sample.world 1 "expense" 2100
              sample.today "Rent" "confirmed" 100)
    as (pre & old & post & _ & _ & _ & Heq); [now left|].
  rewrite Heq. reflexivity.
Defined.

(** Deleting the rent from the sample store empties it; after Clear All
    Data and a restart of the page the same call raises a KeyError. *)
Lemma delete_transaction_removes_sample :
  delete_transaction 1 sample.world
  = (Returned tt,
     {| session := with_df sample.store [];
        has_columns := true;
        cashflow_data_json := Data (dump (with_df sample.store [])) |})
  /\ delete_transaction 1 cases.restarted = (Raised KeyError, cases.restarted).
Proof.
  split.
  - destruct (delete_transaction_removes sample.world 1) as [Hyes _].
    destruct (Hyes eq_refl) as [Heq _]. exact Heq.
  - destruct (delete_transaction_removes cases.restarted 1) as [_ Hno].
    exact (Hno eq_refl).
Defined.

Lemma store_operations_keep_ids_sample :
  store_ok
    (session
       (snd (run_ops [Add "income" 50 sample.today "Gift" "confirmed" 100;
                      Delete 1; Balance 20;
                      Update 7 "income" 1 sample.today "x" "pending" 50]
               sample.world))).
Proof.
  apply (store_operations_keep_ids
           [Add "income" 50 sample.today "Gift" "confirmed" 100;
            Delete 1; Balance 20;
            Update 7 "income" 1 sample.today "x" "pending" 50]
           sample.world).
  exact sample_store_ok.
Defined.

Lemma health_score_monotone_sample :
  health_score
    (calculate_health_metrics sample.today
       (calculate_cash_flow_projection sample.today [sample.rent] 1000) 1000)
  <= health_score
       (calculate_health_metrics sample.today
          (calculate_cash_flow_projection sample.today [] 1000) 1000).
Proof.
  apply (health_score_monotone sample.today
           (calculate_cash_flow_projection sample.today [sample.rent] 1000)
           (calculate_cash_flow_projection sample.today [] 1000) 1000 1000).
  reflexivity.
Defined.


Lemma danger_card_on_day_zero_sample :
  critical_alert
    (calculate_health_metrics sample.today
       (calculate_cash_flow_projection sample.today [cases.due_today] 1000)
       1000)
  = true
  /\ danger_caption
       (calculate_health_metrics sample.today
          (calculate_cash_flow_projection sample.today [cases.due_today] 1000)
          1000)
     = "Safe runway".
Proof.
  destruct (danger_card_on_day_zero sample.today
              (calculate_cash_flow_projection sample.today [cases.due_today]
                 1000)
              1000) as [_ Hzero].
  destruct (Hzero eq_refl) as (Halert & _ & _ & Hcap).
  now split.
Defined.

Lemma projection_ignores_row_order_sample :
  calculate_cash_flow_projection sample.today [sample.rent; sample.invoice]
    1000
  = calculate_cash_flow_projection sample.today [sample.invoice; sample.rent]
      1000.
Proof.
  apply (projection_ignores_row_order sample.today
           [sample.rent; sample.invoice] 1000).
  apply perm_swap.
Defined.

Lemma scenario_final_balance_sample :
  final_balance
    (calculate_cash_flow_projection sample.today
       (apply_scenarios sample.today [sample.rent; sample.invoice]
          "Payment Delays" 15 500)
       1000)
  = final_balance
      (calculate_cash_flow_projection sample.today
         [sample.rent; sample.invoice] 1000)
    - 500.
Proof.
  apply (scenario_final_balance sample.today [sample.rent; sample.invoice]
           "Payment Delays" 15 500 1000); [discriminate | lia].
Defined.

Lemma empty_store_dashboard_sample :
  health_score
    (calculate_health_metrics sample.today
       (calculate_cash_flow_projection sample.today
          (apply_scenarios sample.today [] "Payment Delays" 15 500) 1000)
       1000)
  = 100.
Proof.
  destruct (empty_store_dashboard sample.today "Payment Delays" 15 500 1000)
    as (_ & _ & _ & _ & Hpos & _).
  apply Hpos. lia.
Defined.

Lemma load_data_all_or_nothing_sample :
  load_data (Data cases.bad_data) = default_store.
Proof.
  destruct (load_data_all_or_nothing (Data cases.bad_data))
    as (_ & _ & Hbad & _).
  apply (Hbad cases.bad_data cases.bad_row);
    [reflexivity | now left | reflexivity].
Defined.

Lemma ingestion_keeps_ids_sample :
  (exists d',
     snd (save_to_cashflow_data sample.batch (cashflow_data_json sample.world))
     = Data d'
     /\ data_ok d')
  /\ snd (save_to_cashflow_data cases.huge_batch
            (cashflow_data_json sample.world))
     = cashflow_data_json sample.world.
Proof.
  assert (Hok : data_ok (dump sample.store)).
  { split; cbn.
    - constructor; [intros [] | constructor].
    - intros r [<-|[]]. cbn. lia. }
  split.
  - destruct (ingestion_keeps_ids sample.batch
                (cashflow_data_json sample.world) Hok) as [Hyes _].
    apply Hyes. reflexivity.
  - destruct (ingestion_keeps_ids cases.huge_batch
                (cashflow_data_json sample.world) Hok) as [_ Hno].
    apply Hno. vm_compute. reflexivity.
Defined.

Lemma ingestion_bad_date_hides_store_sample :
  fst (save_to_cashflow_data cases.bad_batch (cashflow_data_json sample.world))
  = true
  /\ load_data
       (snd (save_to_cashflow_data cases.bad_batch
               (cashflow_data_json sample.world)))
     = default_store.
Proof.
  apply (ingestion_bad_date_hides_store cases.bad_batch
           (cashflow_data_json sample.world)
           [sample.extracted; cases.bad_extracted] cases.bad_extracted);
    [reflexivity | right; now left | reflexivity | reflexivity].
Defined.

Lemma ingestion_then_load_sample :
  exists new,
    session_state.transactions_df
      (load_data
         (snd (save_to_cashflow_data sample.batch
                 (cashflow_data_json sample.world))))
    = [sample.rent] ++ new
    /\ List.length new = 1%nat.
Proof.
  destruct (ingestion_then_load sample.batch
              (cashflow_data_json sample.world) [sample.rent])
    as (new & Hdf & _ & _ & Hf & _).
  - reflexivity.
  - reflexivity.
  - intros e [<-|[]]. vm_compute. discriminate.
  - exists new. split; [exact Hdf|].
    apply Forall2_length in Hf. now rewrite <- Hf.
Defined.

Lemma import_data_all_or_nothing_sample :
  import_data (Data (dump sample.store))
    {| session := default_store; has_columns := true;
       cashflow_data_json := NoFile |}
  = (Returned true,
     {| session := sample.store; has_columns := true;
        cashflow_data_json := Data (dump sample.store) |}).
Proof.
  apply (import_data_all_or_nothing (Data (dump sample.store))
           {| session := default_store; has_columns := true;
              cashflow_data_json := NoFile |});
    [|reflexivity].
  apply Forall_cons; [|apply Forall_nil].
  unfold calendar.valid_date, calendar.MAXORDINAL. cbn. lia.
Defined.
